(** * gindex.py: the Markdown index generator, embedded and verified

    The script walks every sub-directory of the working directory and writes
    an [index.md] with a nested bullet list of the Markdown files and
    directories found below it.

    Strings are Python [str] values held as their UTF-8 bytes: comparing
    byte by byte orders two strings as comparing code point by code point
    does, and the characters the script looks for (".md", the backslash,
    "/", the white space removed by [strip]) keep their encoding apart from
    every other character's.

    The file system is a finite tree of nodes; a call of the script that
    reads the disk ([os.listdir], [os.path.isdir], [os.path.isfile],
    [open]) reads the node its path argument denotes. *)

From Stdlib Require Import String Ascii List Bool Arith Lia.
From Stdlib Require Import Sorting.Sorted Sorting.Permutation.
Import ListNotations.
Open Scope string_scope.
Set Warnings "-register-all".

(* ------------------------------------------------------------------ *)
(** ** Python built-ins the script uses *)

Module Py.

(** The line feed, written [\n] in the source. *)
Definition LF : string := String (ascii_of_nat 10) "".

Definition backslash : ascii := ascii_of_nat 92.
Definition slash : ascii := ascii_of_nat 47.

(** [s * n] *)
Fixpoint mul (s : string) (n : nat) : string :=
  match n with
  | O => ""
  | S n' => s ++ mul s n'
  end.

(** [s.startswith(p)] *)
Definition startswith (s p : string) : bool := prefix p s.

(** [s.endswith(suffix)] *)
Definition endswith (s suffix : string) : bool :=
  let n := String.length s in
  let m := String.length suffix in
  (m <=? n)%nat && (substring (n - m) m s =? suffix).

(** [s[:-k]] for a positive [k]: all but the last [k] characters, the
    empty string when [s] is shorter. *)
Definition drop_last (k : nat) (s : string) : string :=
  substring 0 (String.length s - k) s.

(** [s.replace(old, new)] for one-character [old] and [new]. *)
Fixpoint replace (old new : ascii) (s : string) : string :=
  match s with
  | "" => ""
  | String c s' =>
      String (if Ascii.eqb c old then new else c) (replace old new s')
  end.

(** [s.split(sep)] for a one-character separator: never an empty list. *)
Fixpoint split (sep : ascii) (s : string) : list string :=
  match s with
  | "" => [""]
  | String c s' =>
      if Ascii.eqb c sep then "" :: split sep s'
      else match split sep s' with
           | [] => [String c ""]
           | w :: ws => String c w :: ws
           end
  end.

(** [sep.join(l)] *)
Definition join (sep : ascii) (l : list string) : string :=
  String.concat (String sep "") l.

(** [s.rfind(sep) + 1]: the position after the last [sep], 0 when there
    is none. *)
Fixpoint rfind_succ (sep : ascii) (s : string) : nat :=
  match s with
  | "" => 0
  | String c s' =>
      match rfind_succ sep s' with
      | O => if Ascii.eqb c sep then 1 else 0
      | S i => S (S i)
      end
  end.

(** [s[i:]] *)
Fixpoint drop (i : nat) (s : string) : string :=
  match i, s with
  | O, _ => s
  | S _, "" => ""
  | S i', String _ s' => drop i' s'
  end.

Fixpoint rev (s : string) : string :=
  match s with
  | "" => ""
  | String c s' => rev s' ++ String c ""
  end.

Definition of_bytes (l : list nat) : string :=
  string_of_list_ascii (map ascii_of_nat l).

(** The characters [str.strip()] removes, as UTF-8: U+0009..U+000D,
    U+001C..U+0020, U+0085, U+00A0, U+1680, U+2000..U+200A, U+2028,
    U+2029, U+202F, U+205F and U+3000. *)
Definition whitespace : list string :=
  map of_bytes
    [ [9]; [10]; [11]; [12]; [13]; [28]; [29]; [30]; [31]; [32];
      [194; 133]; [194; 160]; [225; 154; 128];
      [226; 128; 128]; [226; 128; 129]; [226; 128; 130]; [226; 128; 131];
      [226; 128; 132]; [226; 128; 133]; [226; 128; 134]; [226; 128; 135];
      [226; 128; 136]; [226; 128; 137]; [226; 128; 138];
      [226; 128; 168]; [226; 128; 169]; [226; 128; 175];
      [226; 129; 159]; [227; 128; 128] ].

(** Removes one leading pattern of [pats], if [s] starts with one. *)
Fixpoint strip_one (pats : list string) (s : string) : option string :=
  match pats with
  | [] => None
  | p :: pats' =>
      if prefix p s then Some (drop (String.length p) s) else strip_one pats' s
  end.

(** Leading patterns removed one after the other; [fuel] bounds their
    number and [length s] is always enough. *)
Fixpoint lstrip_with (pats : list string) (fuel : nat) (s : string)
  : string :=
  match fuel with
  | O => s
  | S fuel' =>
      match strip_one pats s with
      | Some s' => lstrip_with pats fuel' s'
      | None => s
      end
  end.

Definition lstrip (s : string) : string :=
  lstrip_with whitespace (String.length s) s.

(** White space is removed from the end on the reversed bytes. *)
Definition rstrip (s : string) : string :=
  rev (lstrip_with (map rev whitespace) (String.length s) (rev s)).

(** [s.strip()] *)
Definition strip (s : string) : string := rstrip (lstrip s).

(** [c in s] for a one-character [c]. *)
Fixpoint has (c : ascii) (s : string) : bool :=
  match s with
  | "" => false
  | String c' s' => Ascii.eqb c' c || has c s'
  end.

(** The truth value of a [str]: non-empty. *)
Definition truthy (s : string) : bool := negb (s =? "").

(** [sorted(l)] on strings: ascending in the order of [<] on [str]. Any
    sort returns the same list; this one inserts. *)
Fixpoint insert (x : string) (l : list string) : list string :=
  match l with
  | [] => [x]
  | y :: l' => if (x <=? y)%string then x :: l else y :: insert x l'
  end.

Definition sorted (l : list string) : list string :=
  fold_right insert [] l.

End Py.

(* ------------------------------------------------------------------ *)
(** ** Exceptions *)

(** The exceptions a file-system call raises here; all are subclasses of
    [OSError], hence of [Exception]. *)
Inductive exn : Type :=
| PermissionError
| IsADirectoryError
| NotADirectoryError
| FileNotFoundError
| OSError.

Inductive result (A : Type) : Type :=
| Ok (a : A)
| Raise (e : exn).
Arguments Ok {A} a.
Arguments Raise {A} e.

Definition bind {A B : Type} (r : result A) (k : A -> result B) : result B :=
  match r with
  | Ok a => k a
  | Raise e => Raise e
  end.

Declare Scope py_scope.
Notation "x <- c ;; k" := (bind c (fun x => k))
  (at level 61, c at next level, right associativity) : py_scope.
Open Scope py_scope.

(* ------------------------------------------------------------------ *)
(** ** [os.path] *)

(** What the script takes from [os] and [os.path]. The module behind
    [os.path] depends on the host ([posixpath] or [ntpath]), so the script
    is embedded over this interface. *)
Class OsPath : Type := {
  os_sep : ascii;
  os_getcwd : string;
  os_path_join : string -> string -> string;
  os_path_normpath : string -> string;
  os_path_basename : string -> string;
  os_path_relpath : string -> string -> string;
  (** the names a directory entry of this host can have *)
  valid_name : string -> bool;
}.

(** [posixpath], for a process whose working directory is [cwd]. *)
Module posixpath.

Definition sep : ascii := Py.slash.
Definition curdir : string := ".".
Definition pardir : string := "..".

Definition isabs (s : string) : bool := Py.startswith s (String sep "").

(** [join(a, b)] *)
Definition join (a b : string) : string :=
  if Py.startswith b (String sep "") then b
  else if (a =? "") || Py.endswith a (String sep "") then a ++ b
  else a ++ String sep "" ++ b.

(** [join] applied to the elements of a non-empty [l]. *)
Definition join_list (l : list string) : string :=
  match l with
  | [] => ""
  | a :: p => fold_left join p a
  end.

(** One round of the loop of [normpath] over the components. *)
Definition normpath_step (initial_slashes : nat) (new_comps : list string)
    (comp : string) : list string :=
  if (comp =? "") || (comp =? curdir) then new_comps
  else if negb (comp =? pardir)
          || ((initial_slashes =? 0)%nat && (List.length new_comps =? 0)%nat)
          || (negb (List.length new_comps =? 0)%nat
              && (last new_comps "" =? pardir))
       then (new_comps ++ [comp])%list
       else removelast new_comps.

Definition normpath (path : string) : string :=
  if path =? "" then curdir
  else
    let initial_slashes :=
      if Py.startswith path (String sep "") then
        if Py.startswith path (Py.mul (String sep "") 2)
           && negb (Py.startswith path (Py.mul (String sep "") 3))
        then 2 else 1
      else 0 in
    let comps := Py.split sep path in
    let new_comps := fold_left (normpath_step initial_slashes) comps [] in
    let path := Py.join sep new_comps in
    let path := Py.mul (String sep "") initial_slashes ++ path in
    if path =? "" then curdir else path.

Definition abspath (cwd path : string) : string :=
  if isabs path then normpath path else normpath (join cwd path).

Definition basename (p : string) : string :=
  Py.drop (Py.rfind_succ sep p) p.

(** [len(commonprefix([l1, l2]))] on two lists of components. *)
Fixpoint common_prefix_len (l1 l2 : list string) : nat :=
  match l1, l2 with
  | x :: l1', y :: l2' => if x =? y then S (common_prefix_len l1' l2') else 0
  | _, _ => 0
  end.

(** [relpath(path, start)]; the [ValueError] on an empty [path] is left
    out, the script never passes one. *)
Definition relpath (cwd path start : string) : string :=
  let start_list :=
    filter Py.truthy (Py.split sep (abspath cwd start)) in
  let path_list :=
    filter Py.truthy (Py.split sep (abspath cwd path)) in
  let i := common_prefix_len start_list path_list in
  let rel_list :=
    (repeat pardir (List.length start_list - i) ++ skipn i path_list)%list in
  match rel_list with
  | [] => curdir
  | _ => join_list rel_list
  end.

(** A directory entry: not empty, no "/", no NUL, neither "." nor "..". *)
Definition name_ok (s : string) : bool :=
  negb (s =? "") && negb (Py.has sep s) && negb (Py.has zero s)
  && negb (s =? curdir) && negb (s =? pardir).

End posixpath.

Definition posix (cwd : string) : OsPath := {|
  os_sep := posixpath.sep;
  os_getcwd := cwd;
  os_path_join := posixpath.join;
  os_path_normpath := posixpath.normpath;
  os_path_basename := posixpath.basename;
  os_path_relpath := posixpath.relpath cwd;
  valid_name := posixpath.name_ok;
|}.

(* ------------------------------------------------------------------ *)
(** ** The file system *)

(** A node of the tree: a regular file with its write permission and its
    content, a directory with its read and write permission and its
    entries in the order [os.listdir] returns them, or something that is
    neither (a socket). Search permission is taken as granted, so [stat]
    succeeds on every entry of a directory. *)
Inductive node : Type :=
| File (writable : bool) (content : string)
| Special
| Dir (readable writable : bool) (entries : list (string * node)).

Definition isdir (n : node) : bool :=
  match n with Dir _ _ _ => true | _ => false end.

Definition isfile (n : node) : bool :=
  match n with File _ _ => true | _ => false end.

Definition children (n : node) : list (string * node) :=
  match n with Dir _ _ entries => entries | _ => [] end.

(** Path resolution by one component: [k] applied to the first entry called
    [name], [d] when there is none. *)
Definition with_child {A : Type} (name : string) (k : node -> A) (d : A)
  : list (string * node) -> A :=
  fix go entries :=
    match entries with
    | [] => d
    | (nm, c) :: entries' => if nm =? name then k c else go entries'
    end.

Definition lookup (name : string) (entries : list (string * node))
  : option node :=
  with_child name Some None entries.

(** The first entry called [name] replaced by [c]. *)
Fixpoint set_child (name : string) (c : node)
    (entries : list (string * node)) : list (string * node) :=
  match entries with
  | [] => []
  | (nm, c0) :: entries' =>
      if nm =? name then (nm, c) :: entries'
      else (nm, c0) :: set_child name c entries'
  end.

(** [os.listdir(path)] where [path] denotes [n]. *)
Definition os_listdir (n : node) : result (list string) :=
  match n with
  | Dir true _ entries => Ok (map fst entries)
  | Dir false _ _ => Raise PermissionError
  | _ => Raise NotADirectoryError
  end.

(** [os.path.isdir(os.path.join(path, item))] where [entries] are those of
    the directory [path] denotes; [False] when there is no such entry. *)
Definition os_path_isdir (entries : list (string * node)) (item : string)
  : bool :=
  with_child item isdir false entries.

Definition os_path_isfile (entries : list (string * node)) (item : string)
  : bool :=
  with_child item isfile false entries.

(** [open(path, 'w')] where [path] denotes the entry [name] of [n]: an
    existing regular file is truncated when it can be written and raises
    [PermissionError] when it cannot, a missing one is created when the
    directory can be written. *)
Definition open_w (n : node) (name : string) : result node :=
  match n with
  | Dir r w entries =>
      match lookup name entries with
      | Some (File true _) =>
          Ok (Dir r w (set_child name (File true "") entries))
      | Some (File false _) => Raise PermissionError
      | Some (Dir _ _ _) => Raise IsADirectoryError
      | Some Special => Raise OSError
      | None =>
          if w then Ok (Dir r w ((name, File true "") :: entries))
          else Raise PermissionError
      end
  | _ => Raise NotADirectoryError
  end.

(** What closing the file leaves on disk: [content] in the entry [name]. *)
Definition write_file (n : node) (name content : string) : node :=
  match n with
  | Dir r w entries => Dir r w (set_child name (File true content) entries)
  | _ => n
  end.

(* ------------------------------------------------------------------ *)
(** ** The script *)

Section Script.

Context {P : OsPath}.

Definition is_ignored_dir (dir_name : string) : bool :=
  let ignored_dirs := [".git"; "__pycache__"; ".DS_Store"] in
  existsb (String.eqb dir_name) ignored_dirs.

(** One round of the loop that separates directories from files
    (lines 42-47); the state is [(directories, markdown_files)]. *)
Definition classify (entries : list (string * node))
    (acc : list string * list string) (item : string)
  : list string * list string :=
  let '(directories, markdown_files) := acc in
  if os_path_isdir entries item && negb (is_ignored_dir item)
  then ((directories ++ [item])%list, markdown_files)
  else if os_path_isfile entries item && Py.endswith item ".md"
          && negb (item =? "index.md")
       then (directories, (markdown_files ++ [item])%list)
       else acc.

(** The link of a file (lines 53-59). *)
Definition file_link (root_path current_path md_file : string) : string :=
  let relative_dir := os_path_relpath current_path root_path in
  if relative_dir =? "." then md_file
  else
    let relative_dir := Py.replace Py.backslash Py.slash relative_dir in
    relative_dir ++ "/" ++ md_file.

(** One round of the loop over the files (lines 50-60). Every [md_file]
    ends in ".md", so that its last three characters are three bytes. *)
Definition render_file (root_path current_path indent result md_file : string)
  : string :=
  let display_name := Py.drop_last 3 md_file in
  let file_link := file_link root_path current_path md_file in
  result ++ indent ++ "* [" ++ display_name ++ "](" ++ file_link ++ ")"
         ++ Py.LF.

(** One round of the loop over the directories (lines 63-72); [recurse]
    is the recursive call on the directory that [dir_path] denotes, the
    entry [directory] of [entries]. An exception leaves the loop. *)
Definition render_directory (recurse : node -> string -> result string)
    (entries : list (string * node)) (current_path indent : string)
    (acc : result string) (directory : string) : result string :=
  result <- acc ;;
  let dir_path := os_path_join current_path directory in
  let result := result ++ indent ++ "* " ++ directory ++ Py.LF in
  sub_list <-
    with_child directory (fun c => recurse c dir_path)
               (Raise FileNotFoundError) entries ;;
  Ok (if Py.truthy sub_list then result ++ sub_list else result).

(** [os.listdir(current_path)] is the match on [n], written out so that
    the recursion is structural on the tree: a directory that cannot be
    read raises [PermissionError], which line 35 catches; something that
    is no directory raises [NotADirectoryError], which nothing catches
    here. The recursion goes as deep as the tree: the limit the
    interpreter sets on nested calls is not part of this model, nor are
    names that are no valid UTF-8. *)
Fixpoint generate_nested_list (n : node) (root_path current_path : string)
    (base_indent : nat) : result string :=
  let result := "" in
  let indent := Py.mul "    " base_indent in
  match n with
  | File _ _ | Special => Raise NotADirectoryError
  | Dir false _ _ => Ok (indent ++ "* [无法访问目录]" ++ Py.LF)
  | Dir true _ entries =>
      let items := Py.sorted (map fst entries) in
      let '(directories, markdown_files) :=
        fold_left (classify entries) items ([], []) in
      let result :=
        fold_left (render_file root_path current_path indent)
                  markdown_files result in
      fold_left
        (render_directory
           (fun c dir_path =>
              generate_nested_list c root_path dir_path (S base_indent))
           entries current_path indent)
        directories (Ok result)
  end.

(** Lines 76-105, for an [output_file] that names an entry of the
    directory [n] that [root_path] denotes, as in the one call of the
    script, where [output_file] is [os.path.join(root_path, "index.md")]:
    its directory is [n], which exists, so that lines 89-91 do nothing,
    and the file opened is the entry of [n] with the base name of
    [output_file]. An [output_file] in another directory is outside this
    model. The result is the directory as the call leaves it and how the
    call ends. The file is created or truncated before the tree is
    listed, and holds what was written when it is closed, also when an
    exception goes through the [with] block. *)
Definition generate_markdown_index (root_path output_file : string)
    (n : node) : node * result unit :=
  let root_path := os_path_normpath root_path in
  let root_name := os_path_basename root_path in
  let name := os_path_basename output_file in
  match open_w n name with
  | Raise e => (n, Raise e)
  | Ok n =>
      let f := "# " ++ root_name ++ Py.LF ++ Py.LF in
      let f := f ++ "## 目录" ++ Py.LF ++ Py.LF in
      match generate_nested_list n root_path root_path 0 with
      | Raise e => (write_file n name f, Raise e)
      | Ok nested_list =>
          let f :=
            if Py.truthy (Py.strip nested_list) then f ++ nested_list
            else f ++ "* 暂无内容" ++ Py.LF in
          (write_file n name f, Ok tt)
      end
  end.

(** A line on the standard output; [Reported] is the line of line 137,
    whose end is the text of the exception. *)
Inductive printed : Type :=
| Line (s : string)
| Reported (directory : string) (e : exn).

(** How a run ends: the exit status of the process, what it printed and
    the working directory as it leaves it. *)
Record outcome : Type := {
  status : nat;
  stdout : list printed;
  disk : node;
}.

(** One round of the loop of [main] (lines 129-137) on the entries of
    the working directory. *)
Definition process (current_dir : string)
    (st : list (string * node) * list printed) (directory : string)
  : list (string * node) * list printed :=
  let '(entries, out) := st in
  let dir_path := os_path_join current_dir directory in
  let output_file := os_path_join dir_path "index.md" in
  match lookup directory entries with
  | None => (entries, (out ++ [Reported directory FileNotFoundError])%list)
  | Some c =>
      match generate_markdown_index dir_path output_file c with
      | (c', Ok _) =>
          (set_child directory c' entries,
           (out ++ [Line ("已成功生成索引文件: " ++ output_file)])%list)
      | (c', Raise e) =>
          (set_child directory c' entries,
           (out ++ [Reported directory e])%list)
      end
  end.

(** [main], run in the working directory [n]. An exception that nothing
    catches ends the process with status 1 and a traceback on the
    standard error. *)
Definition main (n : node) : outcome :=
  let current_dir := os_getcwd in
  match os_listdir n with
  | Raise PermissionError =>
      {| status := 1; stdout := [Line "错误: 无法访问当前目录"]; disk := n |}
  | Raise _ => {| status := 1; stdout := []; disk := n |}
  | Ok items =>
      let directories :=
        filter (fun item => os_path_isdir (children n) item
                            && negb (is_ignored_dir item)) items in
      match directories with
      | [] => {| status := 0; stdout := [Line "当前目录下没有子目录"];
                 disk := n |}
      | _ =>
          let '(entries, out) :=
            fold_left (process current_dir) directories (children n, []) in
          {| status := 0; stdout := out;
             disk := match n with
                     | Dir r w _ => Dir r w entries
                     | _ => n
                     end |}
      end
  end.

(** What one round of the loop of [main] does to the directory [c] that
    is the entry [directory] of the working directory, and the line it
    prints. *)
Definition index_of (directory : string) (c : node) : node * result unit :=
  let dir_path := os_path_join os_getcwd directory in
  generate_markdown_index dir_path (os_path_join dir_path "index.md") c.

Definition report (directory : string) (c : option node) : printed :=
  match c with
  | None => Reported directory FileNotFoundError
  | Some c =>
      match snd (index_of directory c) with
      | Ok _ =>
          Line ("已成功生成索引文件: "
                ++ os_path_join (os_path_join os_getcwd directory)
                                "index.md")
      | Raise e => Reported directory e
      end
  end.

(* ---------------------------------------------------------------- *)
(** ** What a listing shows *)

(** The entries of a directory that are rendered as directories. *)
Definition listed_dir (entries : list (string * node)) (item : string)
  : bool :=
  os_path_isdir entries item && negb (is_ignored_dir item).

(** The entries of a directory that are rendered as Markdown files. *)
Definition listed_file (entries : list (string * node)) (item : string)
  : bool :=
  os_path_isfile entries item && Py.endswith item ".md"
  && negb (item =? "index.md").

Definition directories_of (entries : list (string * node)) : list string :=
  filter (listed_dir entries) (Py.sorted (map fst entries)).

Definition markdown_files_of (entries : list (string * node))
  : list string :=
  filter (listed_file entries) (Py.sorted (map fst entries)).

(** A rendered line: a Markdown file of the directory [current_path]
    with the display text and the link it is given, a directory, or the
    mark of a directory that cannot be read. *)
Inductive entry : Type :=
| FileEntry (depth : nat) (current_path md_file display_name file_link
             : string)
| DirEntry (depth : nat) (directory : string)
| Denied (depth : nat).

Definition render_entry (e : entry) : string :=
  match e with
  | FileEntry depth _ _ display_name file_link =>
      Py.mul "    " depth ++ "* [" ++ display_name ++ "](" ++ file_link
      ++ ")" ++ Py.LF
  | DirEntry depth directory =>
      Py.mul "    " depth ++ "* " ++ directory ++ Py.LF
  | Denied depth => Py.mul "    " depth ++ "* [无法访问目录]" ++ Py.LF
  end.

Definition render (l : list entry) : string :=
  String.concat "" (map render_entry l).

(** The lines of the fragment of [n], in order. *)
Fixpoint listing (n : node) (root_path current_path : string)
    (depth : nat) : list entry :=
  match n with
  | File _ _ | Special => []
  | Dir false _ _ => [Denied depth]
  | Dir true _ entries =>
      (map (fun md_file =>
              FileEntry depth current_path md_file
                        (Py.drop_last 3 md_file)
                        (file_link root_path current_path md_file))
           (markdown_files_of entries)
       ++
       flat_map
         (fun directory =>
            DirEntry depth directory
            :: with_child directory
                 (fun c =>
                    listing c root_path
                            (os_path_join current_path directory)
                            (S depth))
                 [] entries)
         (directories_of entries))%list
  end.

(** [current_path] after descending from [root_path] along [ds]. *)
Definition descend (root_path : string) (ds : list string) : string :=
  fold_left os_path_join ds root_path.

(** The first entry called [name] changed by [f]. *)
Fixpoint update_child (name : string) (f : node -> node)
    (entries : list (string * node)) : list (string * node) :=
  match entries with
  | [] => []
  | (nm, c) :: entries' =>
      if nm =? name then (nm, f c) :: entries'
      else (nm, c) :: update_child name f entries'
  end.

(** The tree [n] with [c] in the place of what is at [ds] below it. *)
Fixpoint update_at (ds : list string) (c : node) (n : node) : node :=
  match ds with
  | [] => c
  | d :: ds' =>
      match n with
      | Dir r w entries => Dir r w (update_child d (update_at ds' c) entries)
      | _ => n
      end
  end.

(** The recursion started at [n] reaches the directory at [ds] below it:
    every directory on the way can be read and every name on the way is
    the name of a listed directory. *)
Fixpoint visits (n : node) (ds : list string) : bool :=
  match ds with
  | [] => isdir n
  | d :: ds' =>
      match n with
      | Dir true _ entries =>
          negb (is_ignored_dir d)
          && with_child d (fun c => visits c ds') false entries
      | _ => false
      end
  end.

(** What holds of a file line of the nested list of [root_path]: its
    directory is reached from the root along valid names, and its link
    and display text are the ones lines 51-59 compute. *)
Definition link_spec (root_path : string) (e : entry) : Prop :=
  match e with
  | FileEntry _ current_path md_file display_name link =>
      exists ds,
        Forall (fun x => valid_name x = true) ds
        /\ valid_name md_file = true
        /\ current_path = descend root_path ds
        /\ link = file_link root_path current_path md_file
        /\ display_name = Py.drop_last 3 md_file
        /\ md_file = display_name ++ ".md"
  | _ => True
  end.

(** No directory of the tree has two entries of one name. *)
Fixpoint unique_names (n : node) : Prop :=
  match n with
  | Dir _ _ entries =>
      NoDup (map fst entries)
      /\ fold_right (fun e acc => unique_names (snd e) /\ acc) True entries
  | _ => True
  end.

(** Every name in the tree is one the host allows. *)
Fixpoint valid_names (n : node) : Prop :=
  match n with
  | Dir _ _ entries =>
      fold_right
        (fun e acc =>
           valid_name (fst e) = true /\ valid_names (snd e) /\ acc)
        True entries
  | _ => True
  end.

End Script.

(** What [os.path] guarantees on the paths the script builds. [absolute]
    picks the absolute, normalised paths of the host, as [os.getcwd]
    returns them. *)
Record OsPathLaws (P : OsPath) (absolute : string -> Prop) : Prop := {
  sep_cases : os_sep = Py.slash \/ os_sep = Py.backslash;
  getcwd_absolute : absolute os_getcwd;
  valid_name_sep : forall x, valid_name x = true -> Py.has os_sep x = false;
  valid_name_dot : forall x, valid_name x = true -> x <> "." /\ x <> "";
  valid_index : valid_name "index.md" = true;
  join_absolute : forall p x,
    absolute p -> valid_name x = true -> absolute (os_path_join p x);
  normpath_absolute : forall p, absolute p -> os_path_normpath p = p;
  basename_join : forall p x,
    absolute p -> valid_name x = true
    -> os_path_basename (os_path_join p x) = x;
  relpath_descend : forall root ds,
    absolute root -> Forall (fun x => valid_name x = true) ds
    -> os_path_relpath (descend root ds) root
       = match ds with [] => "." | _ => Py.join os_sep ds end;
}.

(** What [os.path] makes of a link: names joined by "/" and joined to an
    absolute path denote, once normalised, the path reached by joining
    the names one after the other. *)
Record OsPathLinks (P : OsPath) (absolute : string -> Prop) : Prop := {
  join_link : forall root names,
    absolute root -> Forall (fun x => valid_name x = true) names ->
    names <> [] ->
    os_path_normpath (os_path_join root (Py.join Py.slash names))
    = descend root names;
}.

(** The absolute, normalised paths of a POSIX host. *)
Definition posix_path (comps : list string) : string :=
  "/" ++ Py.join posixpath.sep comps.

Definition posix_absolute (p : string) : Prop :=
  exists comps,
    Forall (fun x => posixpath.name_ok x = true) comps
    /\ p = posix_path comps.

(** The order of [<=] on [str]. *)
Definition str_le (a b : string) : Prop := (a <=? b)%string = true.

(** ** A sample host and tree

    A POSIX host whose working directory "/home/u" holds a project, an
    empty directory, a directory that cannot be written, a directory whose
    "index.md" is itself a directory, a cache directory and a directory
    that cannot be read. *)
Module Sample.

Definition host : OsPath := posix "/home/u".

Definition src : list (string * node) :=
  [("main.md", File true ""); ("a\b.md", File true "");
   ("deep", Dir true true [("z.md", File true "")])].

Definition proj : list (string * node) :=
  [("readme.md", File true "x"); ("notes.md", File true "y");
   ("src", Dir true true src); ("z.md", File true "");
   ("a", Dir true true []);
   (".git", Dir true true [("x.md", File true "")]);
   ("locked", Dir false true [("x.md", File true "")]);
   ("index.md", File true "old"); ("x.txt", File true "");
   ("sock.md", Special)].

Definition wd : node :=
  Dir true true
    [("proj", Dir true true proj); ("empty", Dir true true []);
     ("ro", Dir true false []); ("f.md", File true "");
     ("bad", Dir true true [("index.md", Dir true true [])]);
     ("__pycache__", Dir true true []);
     ("noread", Dir false true [("q.md", File true "")])].

End Sample.

(** ** The tree below a directory *)

(** The node at [ds] below [n]. *)
Fixpoint subtree_at (n : node) (ds : list string) {struct ds}
  : option node :=
  match ds with
  | [] => Some n
  | d :: ds' =>
      match n with
      | Dir _ _ entries =>
          with_child d (fun c => subtree_at c ds') None entries
      | _ => None
      end
  end.

(** The tree with every file emptied and every directory closed to
    writing: what is left is the names, the kinds and the read
    permissions. *)
Fixpoint erase (n : node) : node :=
  match n with
  | File _ _ => File false ""
  | Special => Special
  | Dir r _ entries =>
      Dir r false (map (fun e => (fst e, erase (snd e))) entries)
  end.

Section OwnLines.

Context {P : OsPath}.

(** The lines a directory contributes itself, those of the directories
    below it left out. *)
Definition own_lines (m : node) (root_path current_path : string)
    (depth : nat) : list entry :=
  match m with
  | File _ _ | Special => []
  | Dir false _ _ => [Denied depth]
  | Dir true _ entries =>
      (map (fun md_file =>
              FileEntry depth current_path md_file
                        (Py.drop_last 3 md_file)
                        (file_link root_path current_path md_file))
           (markdown_files_of entries)
       ++ map (DirEntry depth) (directories_of entries))%list
  end.

End OwnLines.

(** Tactics for the sample trees. *)
Ltac solve_NoDup :=
  repeat (constructor; [simpl; intuition discriminate |]); constructor.

Ltac solve_unique_names := cbn; repeat split; solve_NoDup.

(* ------------------------------------------------------------------ *)
(** * Facts *)

(** ** Strings *)

Lemma str_app_nil_r (s : string) : s ++ "" = s.
Proof. induction s as [|c s IH]; simpl; [reflexivity | now rewrite IH]. Qed.

Lemma str_app_assoc (a b c : string) : (a ++ b) ++ c = a ++ (b ++ c).
Proof. induction a as [|x a IH]; simpl; [reflexivity | now rewrite IH]. Qed.

Lemma str_length_app (a b : string) :
  String.length (a ++ b) = String.length a + String.length b.
Proof. induction a as [|x a IH]; simpl; [reflexivity | now rewrite IH]. Qed.

Lemma has_app (c : ascii) (a b : string) :
  Py.has c (a ++ b) = Py.has c a || Py.has c b.
Proof.
  induction a as [|x a IH]; simpl; [reflexivity |].
  now rewrite IH, orb_assoc.
Qed.

Lemma replace_app (o n : ascii) (a b : string) :
  Py.replace o n (a ++ b) = Py.replace o n a ++ Py.replace o n b.
Proof. induction a as [|x a IH]; simpl; [reflexivity | now rewrite IH]. Qed.

Lemma has_replace (o n : ascii) (s : string) :
  o <> n -> Py.has o (Py.replace o n s) = false.
Proof.
  intros Hne. induction s as [|x s IH]; simpl; [reflexivity |].
  rewrite IH, orb_false_r.
  destruct (Ascii.eqb_spec x o) as [->|Hx].
  - apply Ascii.eqb_neq. congruence.
  - now apply Ascii.eqb_neq.
Qed.

Lemma concat_nil_cons (x : string) (l : list string) :
  String.concat "" (x :: l) = x ++ String.concat "" l.
Proof. destruct l; simpl; [now rewrite str_app_nil_r | reflexivity]. Qed.

Lemma concat_nil_app (l1 l2 : list string) :
  String.concat "" (l1 ++ l2)%list
  = String.concat "" l1 ++ String.concat "" l2.
Proof.
  induction l1 as [|x l1 IH]; [reflexivity |].
  change ((x :: l1) ++ l2)%list with (x :: (l1 ++ l2))%list.
  now rewrite !concat_nil_cons, IH, str_app_assoc.
Qed.

(** ** The tree *)

(** Induction on a tree, with the property known of every entry of a
    directory. *)
Lemma node_rect_entries (Q : node -> Prop) :
  (forall writable content, Q (File writable content)) ->
  Q Special ->
  (forall r w entries,
      Forall (fun e => Q (snd e)) entries -> Q (Dir r w entries)) ->
  forall n, Q n.
Proof.
  intros HF HS HD.
  fix IH 1. intros [writable content| |r w entries].
  - apply HF.
  - apply HS.
  - apply HD. induction entries as [|[nm c] entries IHe].
    + constructor.
    + constructor; [apply IH | exact IHe].
Qed.

Lemma with_child_lookup {A : Type} (name : string) (k : node -> A) (d : A)
    (entries : list (string * node)) :
  with_child name k d entries
  = match lookup name entries with Some c => k c | None => d end.
Proof.
  induction entries as [|[nm c] entries IH]; simpl; [reflexivity |].
  unfold lookup in *; simpl. destruct (nm =? name); [reflexivity | exact IH].
Qed.

Lemma lookup_In (name : string) (entries : list (string * node)) (c : node) :
  lookup name entries = Some c -> In (name, c) entries.
Proof.
  unfold lookup.
  induction entries as [|[nm c0] entries IH]; simpl; [discriminate |].
  destruct (String.eqb_spec nm name) as [->|Hne].
  - intros [= ->]. now left.
  - intros H. right. now apply IH.
Qed.

Lemma In_lookup (name : string) (entries : list (string * node)) (c : node) :
  NoDup (map fst entries) -> In (name, c) entries
  -> lookup name entries = Some c.
Proof.
  unfold lookup.
  induction entries as [|[nm c0] entries IH]; simpl; [intros _ [] |].
  intros Hnd [Heq|Hin]; inversion Hnd as [|? ? Hnotin Hnd']; subst.
  - injection Heq as -> ->. now rewrite String.eqb_refl.
  - destruct (String.eqb_spec nm name) as [->|Hne].
    + exfalso. apply Hnotin. now apply (in_map fst) in Hin.
    + now apply IH.
Qed.

Lemma lookup_names (name : string) (entries : list (string * node)) :
  lookup name entries = None <-> ~ In name (map fst entries).
Proof.
  unfold lookup.
  induction entries as [|[nm c0] entries IH]; simpl.
  - split; [intros _ [] | reflexivity].
  - destruct (String.eqb_spec nm name) as [->|Hne].
    + split; [discriminate | intros H; exfalso; apply H; now left].
    + rewrite IH. split; [intros H [?|?]; [congruence | now apply H]
                         | intros H ?; apply H; now right].
Qed.

Section ScriptFacts.

Context {P : OsPath}.

Lemma isdir_not_isfile (entries : list (string * node)) (item : string) :
  os_path_isdir entries item = true -> os_path_isfile entries item = false.
Proof.
  unfold os_path_isdir, os_path_isfile. rewrite !with_child_lookup.
  destruct (lookup item entries) as [[| |]|]; simpl; congruence.
Qed.

Lemma listed_dir_lookup (entries : list (string * node)) (item : string) :
  listed_dir entries item = true
  <-> exists r w sub,
        lookup item entries = Some (Dir r w sub)
        /\ is_ignored_dir item = false.
Proof.
  unfold listed_dir, os_path_isdir. rewrite with_child_lookup.
  rewrite andb_true_iff, negb_true_iff. split.
  - intros [Hd Hi]. destruct (lookup item entries) as [[| |r w sub]|];
      try discriminate. now exists r, w, sub.
  - intros (r & w & sub & -> & Hi). now split.
Qed.

Lemma listed_file_lookup (entries : list (string * node)) (item : string) :
  listed_file entries item = true
  <-> exists writable content,
        lookup item entries = Some (File writable content)
        /\ Py.endswith item ".md" = true /\ item <> "index.md".
Proof.
  unfold listed_file, os_path_isfile. rewrite with_child_lookup.
  rewrite !andb_true_iff, negb_true_iff, String.eqb_neq. split.
  - intros [[Hf He] Hi].
    destruct (lookup item entries) as [[writable content| |]|];
      try discriminate. now exists writable, content.
  - intros (writable & content & -> & He & Hi). now repeat split.
Qed.

Lemma classify_step (entries : list (string * node)) (item : string)
    (ds fs : list string) :
  classify entries (ds, fs) item
  = ((ds ++ if listed_dir entries item then [item] else [])%list,
     (fs ++ if listed_file entries item then [item] else [])%list).
Proof.
  unfold classify, listed_dir, listed_file.
  destruct (os_path_isdir entries item) eqn:Hd.
  - rewrite (isdir_not_isfile _ _ Hd). simpl.
    destruct (is_ignored_dir item); simpl; now rewrite ?app_nil_r.
  - simpl.
    destruct (os_path_isfile entries item && Py.endswith item ".md"
              && negb (item =? "index.md")); now rewrite ?app_nil_r.
Qed.

(** The loop of lines 42-47 filters the sorted names twice. *)
Lemma classify_fold (entries : list (string * node)) (items : list string)
    (ds fs : list string) :
  fold_left (classify entries) items (ds, fs)
  = ((ds ++ filter (listed_dir entries) items)%list,
     (fs ++ filter (listed_file entries) items)%list).
Proof.
  revert ds fs. induction items as [|x items IH]; intros ds fs.
  - simpl. now rewrite !app_nil_r.
  - cbn [fold_left filter]. rewrite classify_step, IH.
    destruct (listed_dir entries x), (listed_file entries x);
      now rewrite <- ?app_assoc, ?app_nil_r.
Qed.

Lemma render_app (l1 l2 : list entry) :
  render (l1 ++ l2)%list = render l1 ++ render l2.
Proof. unfold render. now rewrite map_app, concat_nil_app. Qed.

Lemma render_cons (e : entry) (l : list entry) :
  render (e :: l) = render_entry e ++ render l.
Proof. unfold render. simpl map. apply concat_nil_cons. Qed.

(** The loop of lines 50-60 appends one line for each file. *)
Lemma render_file_fold (root_path current_path : string) (depth : nat)
    (files : list string) (acc : string) :
  fold_left (render_file root_path current_path (Py.mul "    " depth))
            files acc
  = acc ++ render (map (fun md_file =>
                          FileEntry depth current_path md_file
                            (Py.drop_last 3 md_file)
                            (file_link root_path current_path md_file))
                       files).
Proof.
  revert acc. induction files as [|f files IH]; intros acc; simpl.
  - now rewrite str_app_nil_r.
  - rewrite IH. rewrite render_cons. unfold render_file. cbn [render_entry].
    now rewrite !str_app_assoc.
Qed.

(** The loop of lines 63-72 appends, for each directory, its line and
    the fragment of the directory, when the recursive calls return. *)
Lemma render_dirs_fold (recurse : node -> string -> result string)
    (entries : list (string * node))
    (current_path : string) (depth : nat) (dirs : list string)
    (sub : string -> list entry) (acc : string) :
  (forall d, In d dirs ->
     with_child d (fun c => recurse c (os_path_join current_path d))
                (Raise FileNotFoundError) entries
     = Ok (render (sub d))) ->
  fold_left
    (render_directory recurse entries current_path (Py.mul "    " depth))
    dirs (Ok acc)
  = Ok (acc ++ render (flat_map (fun d => DirEntry depth d :: sub d) dirs)).
Proof.
  revert acc. induction dirs as [|d dirs IH]; intros acc Hsub.
  - simpl. now rewrite str_app_nil_r.
  - cbn [fold_left]. unfold render_directory at 2. cbn [bind].
    rewrite (Hsub d (or_introl eq_refl)). cbn [bind].
    assert (Hstep : forall r s : string,
               (if Py.truthy s then r ++ s else r) = r ++ s).
    { intros r s. unfold Py.truthy. destruct (String.eqb_spec s "") as [->|];
        simpl; [now rewrite str_app_nil_r | reflexivity]. }
    rewrite Hstep, IH by (intros d' Hd'; apply Hsub; now right).
    f_equal. cbn [flat_map app]. rewrite render_cons, render_app.
    cbn [render_entry]. now rewrite !str_app_assoc.
Qed.

(** The text returned for a directory is the rendering of its lines. *)
Lemma generate_nested_list_listing (n : node) :
  isdir n = true ->
  forall root_path current_path depth,
    generate_nested_list n root_path current_path depth
    = Ok (render (listing n root_path current_path depth)).
Proof.
  induction n as [content| |r w entries IH] using node_rect_entries;
    try discriminate.
  intros _ root_path current_path depth. destruct r.
  - cbn [generate_nested_list listing].
    rewrite classify_fold. cbn [app].
    rewrite render_file_fold. cbn [append].
    rewrite render_app.
    erewrite render_dirs_fold; [reflexivity |].
    intros d Hd. apply filter_In in Hd as [_ Hd].
    apply listed_dir_lookup in Hd as (r' & w' & sub & Hl & _).
    rewrite !with_child_lookup, Hl.
    rewrite Forall_forall in IH.
    apply (IH (d, Dir r' w' sub)); [now apply lookup_In | reflexivity].
  - cbn [generate_nested_list listing]. rewrite render_cons.
    change (render []) with "". cbn [render_entry].
    now rewrite str_app_nil_r.
Qed.

End ScriptFacts.

(** ** [sorted] *)

Section Sorting.

Import Stdlib.NArith.BinNat.

Lemma ascii_compare_lt_trans (a b c : ascii) :
  Ascii.compare a b = Lt -> Ascii.compare b c = Lt
  -> Ascii.compare a c = Lt.
Proof.
  unfold Ascii.compare. rewrite !N.compare_lt_iff. apply N.lt_trans.
Qed.

Lemma compare_lt_trans (a b c : string) :
  String.compare a b = Lt -> String.compare b c = Lt
  -> String.compare a c = Lt.
Proof.
  revert b c. induction a as [|x a IH]; intros [|y b] [|z c]; simpl;
    try congruence.
  destruct (Ascii.compare x y) eqn:Hxy; try discriminate;
    destruct (Ascii.compare y z) eqn:Hyz; try discriminate.
  - pose proof (Ascii.compare_eq_iff _ _ Hxy) as ->.
    rewrite Hyz. apply IH.
  - pose proof (Ascii.compare_eq_iff _ _ Hxy) as ->. now rewrite Hyz.
  - pose proof (Ascii.compare_eq_iff _ _ Hyz) as <-. now rewrite Hxy.
  - now rewrite (ascii_compare_lt_trans _ _ _ Hxy Hyz).
Qed.

Lemma str_le_trans (a b c : string) :
  str_le a b -> str_le b c -> str_le a c.
Proof.
  unfold str_le, String.leb. intros Hab Hbc.
  destruct (String.compare a b) eqn:Eab; try discriminate;
    destruct (String.compare b c) eqn:Ebc; try discriminate.
  - apply String.compare_eq_iff in Eab. subst. now rewrite Ebc.
  - apply String.compare_eq_iff in Eab. subst. now rewrite Ebc.
  - apply String.compare_eq_iff in Ebc. subst. now rewrite Eab.
  - now rewrite (compare_lt_trans _ _ _ Eab Ebc).
Qed.

Lemma insert_perm (x : string) (l : list string) :
  Permutation (Py.insert x l) (x :: l).
Proof.
  induction l as [|y l IH]; simpl; [reflexivity |].
  destruct (x <=? y)%string; [reflexivity |].
  rewrite IH. apply perm_swap.
Qed.

Lemma sorted_perm (l : list string) : Permutation (Py.sorted l) l.
Proof.
  induction l as [|x l IH]; simpl; [reflexivity |].
  now rewrite insert_perm, IH.
Qed.

Lemma insert_sorted (x : string) (l : list string) :
  StronglySorted str_le l -> StronglySorted str_le (Py.insert x l).
Proof.
  induction 1 as [|y l Hs IH Hall]; simpl.
  - repeat constructor.
  - destruct (x <=? y)%string eqn:Hxy.
    + constructor; [now constructor |].
      constructor; [exact Hxy |].
      eapply Forall_impl; [| exact Hall].
      intros z Hz. now apply (str_le_trans x y z).
    + constructor; [exact IH |].
      eapply Permutation_Forall.
      * symmetry. apply insert_perm.
      * constructor; [| exact Hall].
        destruct (String.leb_total x y) as [H|H]; [congruence | exact H].
Qed.

Lemma sorted_sorted (l : list string) : StronglySorted str_le (Py.sorted l).
Proof.
  induction l as [|x l IH]; simpl; [constructor | now apply insert_sorted].
Qed.

Lemma filter_sorted (f : string -> bool) (l : list string) :
  StronglySorted str_le l -> StronglySorted str_le (filter f l).
Proof.
  induction 1 as [|y l Hs IH Hall]; simpl; [constructor |].
  destruct (f y); [| exact IH].
  constructor; [exact IH |].
  apply Forall_forall. intros z Hz. apply filter_In in Hz as [Hz _].
  rewrite Forall_forall in Hall. now apply Hall.
Qed.

Lemma sorted_In (x : string) (l : list string) :
  In x (Py.sorted l) <-> In x l.
Proof.
  split; apply Permutation_in; [| symmetry]; apply sorted_perm.
Qed.

Lemma sorted_NoDup (l : list string) : NoDup l -> NoDup (Py.sorted l).
Proof.
  apply Permutation_NoDup. symmetry. apply sorted_perm.
Qed.

Lemma filter_insert (f : string -> bool) (x : string) (l : list string) :
  f x = false -> filter f (Py.insert x l) = filter f l.
Proof.
  intros Hx. induction l as [|y l IH]; simpl; [now rewrite Hx |].
  destruct (x <=? y)%string; simpl; [now rewrite Hx | now rewrite IH].
Qed.

(** A sorted list is the only sorted arrangement of its elements: any
    sort returns what [sorted] returns. *)
Lemma sorted_unique (l1 l2 : list string) :
  StronglySorted str_le l1 -> StronglySorted str_le l2
  -> Permutation l1 l2 -> l1 = l2.
Proof.
  intros H1. revert l2. induction H1 as [|x l1 Hs1 IH Hall1]; intros l2 H2 Hp.
  - apply Permutation_nil in Hp. now subst.
  - destruct H2 as [|y l2 Hs2 Hall2].
    + symmetry in Hp. apply Permutation_nil in Hp. discriminate.
    + assert (Hxy : x = y).
      { assert (Hx : In x (y :: l2))
          by (apply (Permutation_in _ Hp); now left).
        assert (Hy : In y (x :: l1))
          by (apply (Permutation_in _ (Permutation_sym Hp)); now left).
        rewrite Forall_forall in Hall1, Hall2.
        destruct Hx as [->|Hx]; [reflexivity |].
        destruct Hy as [->|Hy]; [reflexivity |].
        apply String.leb_antisym; [now apply Hall1 | now apply Hall2]. }
      subst y. f_equal. apply IH; [exact Hs2 |].
      now apply Permutation_cons_inv in Hp.
Qed.

Lemma sorted_perm_eq (l1 l2 : list string) :
  Permutation l1 l2 -> Py.sorted l1 = Py.sorted l2.
Proof.
  intros Hp. apply sorted_unique; try apply sorted_sorted.
  now rewrite !sorted_perm.
Qed.

End Sorting.

(* ------------------------------------------------------------------ *)
(** * One level of the nested list *)

Section Level.

Context {P : OsPath}.

Lemma render_flat_map (depth : nat) (sub : string -> list entry)
    (dirs : list string) :
  render (flat_map (fun d => DirEntry depth d :: sub d) dirs)
  = String.concat ""
      (map (fun d => Py.mul "    " depth ++ "* " ++ d ++ Py.LF
                     ++ render (sub d)) dirs).
Proof.
  induction dirs as [|d dirs IH]; [reflexivity |].
  cbn [flat_map map app]. rewrite render_cons, render_app, IH.
  rewrite concat_nil_cons. cbn [render_entry].
  now rewrite !str_app_assoc.
Qed.

Lemma markdown_files_In (entries : list (string * node)) (x : string) :
  NoDup (map fst entries) ->
  In x (markdown_files_of entries)
  <-> exists writable content,
        In (x, File writable content) entries
        /\ Py.endswith x ".md" = true /\ x <> "index.md".
Proof.
  intros Hnd. unfold markdown_files_of.
  rewrite filter_In, sorted_In, listed_file_lookup. split.
  - intros [_ (writable & content & Hl & He & Hi)].
    exists writable, content.
    split; [now apply lookup_In | now split].
  - intros (writable & content & Hin & He & Hi). split.
    + now apply (in_map fst) in Hin.
    + exists writable, content.
      split; [now apply In_lookup | now split].
Qed.

Lemma directories_In (entries : list (string * node)) (x : string) :
  NoDup (map fst entries) ->
  In x (directories_of entries)
  <-> exists r w sub,
        In (x, Dir r w sub) entries /\ is_ignored_dir x = false.
Proof.
  intros Hnd. unfold directories_of.
  rewrite filter_In, sorted_In, listed_dir_lookup. split.
  - intros [_ (r & w & sub & Hl & Hi)]. exists r, w, sub.
    split; [now apply lookup_In | exact Hi].
  - intros (r & w & sub & Hin & Hi). split.
    + now apply (in_map fst) in Hin.
    + exists r, w, sub. split; [now apply In_lookup | exact Hi].
Qed.

(** C1. The fragment of a directory that lists successfully is the lines
    of its Markdown files followed by the blocks of its directories (the
    line of the directory, then the fragment of the directory, one level
    deeper). The files are exactly the regular files of the directory
    whose name ends in ".md" and is not "index.md"; the directories are
    exactly its directories whose name is not ignored; neither list
    repeats a name; both are in ascending order, being what remains of
    the sorted listing. *)
Theorem nested_list_level (w : bool) (entries : list (string * node))
    (root_path current_path : string) (depth : nat) :
  NoDup (map fst entries) ->
  exists (files dirs : list string) (sub : string -> string),
    generate_nested_list (Dir true w entries) root_path current_path depth
    = Ok (String.concat ""
            (map (fun md_file =>
                    Py.mul "    " depth ++ "* [" ++ Py.drop_last 3 md_file
                    ++ "](" ++ file_link root_path current_path md_file
                    ++ ")" ++ Py.LF) files)
          ++ String.concat ""
               (map (fun d => Py.mul "    " depth ++ "* " ++ d ++ Py.LF
                              ++ sub d) dirs))
    /\ (forall d c,
           In d dirs -> In (d, c) entries ->
           generate_nested_list c root_path (os_path_join current_path d)
                                (S depth)
           = Ok (sub d))
    /\ (forall x,
           In x files
           <-> exists writable content,
                 In (x, File writable content) entries
                 /\ Py.endswith x ".md" = true /\ x <> "index.md")
    /\ (forall x,
           In x dirs
           <-> exists r w' sub',
                 In (x, Dir r w' sub') entries
                 /\ is_ignored_dir x = false)
    /\ NoDup files /\ NoDup dirs
    /\ StronglySorted str_le files /\ StronglySorted str_le dirs
    /\ Permutation (Py.sorted (map fst entries)) (map fst entries)
    /\ files = filter (listed_file entries) (Py.sorted (map fst entries))
    /\ dirs = filter (listed_dir entries) (Py.sorted (map fst entries)).
Proof.
  intros Hnd.
  exists (markdown_files_of entries), (directories_of entries),
    (fun d => render (with_child d
                        (fun c => listing c root_path
                                    (os_path_join current_path d)
                                    (S depth)) [] entries)).
  split; [| split; [| split; [| split; [| repeat split]]]].
  - rewrite generate_nested_list_listing by reflexivity.
    cbn [listing]. rewrite render_app, render_flat_map.
    unfold render at 1. now rewrite map_map.
  - intros d c Hd Hin. apply directories_In in Hd as (r & w' & s & Hd & _);
      [| exact Hnd].
    rewrite with_child_lookup, (In_lookup _ _ _ Hnd Hin).
    apply generate_nested_list_listing.
    pose proof (In_lookup _ _ _ Hnd Hin) as H1.
    pose proof (In_lookup _ _ _ Hnd Hd) as H2.
    rewrite H1 in H2. now injection H2 as ->.
  - intros x. now apply markdown_files_In.
  - intros x. now apply directories_In.
  - apply NoDup_filter. now apply sorted_NoDup.
  - apply NoDup_filter. now apply sorted_NoDup.
  - apply filter_sorted, sorted_sorted.
  - apply filter_sorted, sorted_sorted.
  - apply sorted_perm.
Qed.

End Level.


Lemma nested_list_level_witness :
  exists files dirs sub,
    generate_nested_list (P := Sample.host) (Dir true true Sample.proj)
                         "/home/u/proj" "/home/u/proj" 0
    = Ok (String.concat ""
            (map (fun md_file =>
                    "* [" ++ Py.drop_last 3 md_file ++ "]("
                    ++ file_link (P := Sample.host) "/home/u/proj"
                                 "/home/u/proj" md_file
                    ++ ")" ++ Py.LF) files)
          ++ String.concat ""
               (map (fun d => "* " ++ d ++ Py.LF ++ sub d) dirs))
    /\ files = ["notes.md"; "readme.md"; "z.md"]
    /\ dirs = ["a"; "locked"; "src"].
Proof.
  destruct (nested_list_level (P := Sample.host) true Sample.proj
              "/home/u/proj" "/home/u/proj" 0)
    as (files & dirs & sub & Hgen & _ & _ & _ & _ & _ & _ & _ & _ & Hf & Hd).
  - unfold Sample.proj. simpl. solve_NoDup.
  - exists files, dirs, sub. split; [exact Hgen |].
    split; [rewrite Hf | rewrite Hd]; reflexivity.
Defined.

(* ------------------------------------------------------------------ *)
(** * [strip] on a fragment *)

Lemma prefix_drop (p s : string) :
  prefix p s = true -> s = p ++ Py.drop (String.length p) s.
Proof.
  revert s. induction p as [|c p IH]; intros s; simpl.
  - now destruct s.
  - destruct s as [|c' s]; [discriminate |].
    change (prefix (String c p) (String c' s))
      with (if ascii_dec c c' then prefix p s else false).
    destruct (ascii_dec c c') as [->|]; [| discriminate].
    intros H. simpl. now rewrite <- IH.
Qed.

Lemma strip_one_spec (pats : list string) (s s' : string) :
  Py.strip_one pats s = Some s' -> exists p, In p pats /\ s = p ++ s'.
Proof.
  induction pats as [|p pats IH]; simpl; [discriminate |].
  destruct (prefix p s) eqn:Hp.
  - intros [= <-]. exists p. split; [now left | now apply prefix_drop].
  - intros H. destruct (IH H) as (q & Hq & ->). exists q. now split; [right |].
Qed.

(** A byte that is in no pattern is in what [lstrip_with] leaves. *)
Lemma lstrip_with_keeps (c : ascii) (pats : list string) (fuel : nat)
    (s : string) :
  forallb (fun p => negb (Py.has c p)) pats = true ->
  Py.has c (Py.lstrip_with pats fuel s) = Py.has c s.
Proof.
  intros Hpats. revert s. induction fuel as [|fuel IH]; intros s; simpl;
    [reflexivity |].
  destruct (Py.strip_one pats s) as [s'|] eqn:Hs; [| reflexivity].
  apply strip_one_spec in Hs as (p & Hp & ->).
  rewrite IH, has_app. rewrite forallb_forall in Hpats.
  apply Hpats in Hp. apply negb_true_iff in Hp. now rewrite Hp.
Qed.

Lemma has_rev (c : ascii) (s : string) :
  Py.has c (Py.rev s) = Py.has c s.
Proof.
  induction s as [|x s IH]; simpl; [reflexivity |].
  rewrite has_app, IH. simpl. now rewrite orb_false_r, orb_comm.
Qed.

Lemma strip_keeps_star (s : string) :
  Py.has "*" (Py.strip s) = Py.has "*" s.
Proof.
  unfold Py.strip, Py.rstrip, Py.lstrip.
  rewrite has_rev, lstrip_with_keeps, has_rev by reflexivity.
  now apply lstrip_with_keeps.
Qed.

Lemma truthy_strip (s : string) :
  Py.has "*" s = true -> Py.truthy (Py.strip s) = true.
Proof.
  rewrite <- strip_keeps_star. unfold Py.truthy.
  destruct (Py.strip s); [discriminate | reflexivity].
Qed.

Section Fragment.

Context {P : OsPath}.

Lemma render_entry_star (e : entry) :
  Py.has "*" (render_entry e) = true.
Proof.
  destruct e; cbn [render_entry]; rewrite has_app;
    apply orb_true_iff; right; reflexivity.
Qed.

Lemma render_star (l : list entry) :
  Py.has "*" (render l) = negb (List.length l =? 0)%nat.
Proof.
  destruct l as [|e l]; [reflexivity |].
  now rewrite render_cons, has_app, render_entry_star.
Qed.

(** What [strip] leaves of a fragment is empty exactly when the fragment
    has no line. *)
Lemma truthy_strip_render (l : list entry) :
  Py.truthy (Py.strip (render l)) = negb (List.length l =? 0)%nat.
Proof.
  destruct l as [|e l]; [reflexivity |].
  apply truthy_strip. now rewrite render_star.
Qed.

Lemma listing_empty (r w : bool) (entries : list (string * node))
    (root_path current_path : string) (depth : nat) :
  listing (Dir r w entries) root_path current_path depth = []
  <-> r = true /\ markdown_files_of entries = []
      /\ directories_of entries = [].
Proof.
  destruct r; cbn [listing].
  - split.
    + intros H. apply app_eq_nil in H as [Hf Hd].
      apply map_eq_nil in Hf.
      destruct (directories_of entries); [now repeat split | discriminate].
    + intros (_ & -> & ->). reflexivity.
  - split; [discriminate | now intros [? _]].
Qed.

End Fragment.

(* ------------------------------------------------------------------ *)
(** * Writing an entry *)

Lemma lookup_set_child_other (name x : string) (c : node)
    (entries : list (string * node)) :
  x <> name -> lookup x (set_child name c entries) = lookup x entries.
Proof.
  intros Hne. unfold lookup.
  induction entries as [|[nm c0] entries IH]; simpl; [reflexivity |].
  destruct (String.eqb_spec nm name) as [->|Hnm]; simpl.
  - destruct (String.eqb_spec name x); [congruence | reflexivity].
  - destruct (nm =? x); [reflexivity | exact IH].
Qed.

Lemma lookup_set_child_same (name : string) (c : node)
    (entries : list (string * node)) :
  lookup name entries <> None
  -> lookup name (set_child name c entries) = Some c.
Proof.
  unfold lookup.
  induction entries as [|[nm c0] entries IH]; simpl; [congruence |].
  destruct (String.eqb_spec nm name) as [->|Hnm]; simpl.
  - now rewrite String.eqb_refl.
  - destruct (String.eqb_spec nm name); [congruence | exact IH].
Qed.

Lemma map_fst_set_child (name : string) (c : node)
    (entries : list (string * node)) :
  map fst (set_child name c entries) = map fst entries.
Proof.
  induction entries as [|[nm c0] entries IH]; simpl; [reflexivity |].
  destruct (nm =? name); simpl; [reflexivity | now rewrite IH].
Qed.

Lemma set_child_twice (name : string) (c c' : node)
    (entries : list (string * node)) :
  set_child name c (set_child name c' entries) = set_child name c entries.
Proof.
  induction entries as [|[nm c0] entries IH]; simpl; [reflexivity |].
  destruct (String.eqb_spec nm name) as [->|Hnm]; simpl.
  - now rewrite String.eqb_refl.
  - destruct (String.eqb_spec nm name); [congruence | now rewrite IH].
Qed.

Lemma set_child_absent (name : string) (c : node)
    (entries : list (string * node)) :
  lookup name entries = None -> set_child name c entries = entries.
Proof.
  unfold lookup.
  induction entries as [|[nm c0] entries IH]; simpl; [reflexivity |].
  destruct (nm =? name); [discriminate | intros H; now rewrite IH].
Qed.

(** What a successful [open] for writing leaves: the same directory with
    the entry [name] an empty file, and nothing else changed. *)
Lemma open_w_Ok (n n1 : node) (name : string) :
  open_w n name = Ok n1 ->
  exists r w entries entries1,
    n = Dir r w entries /\ n1 = Dir r w entries1
    /\ lookup name entries1 = Some (File true "")
    /\ (forall x, x <> name -> lookup x entries1 = lookup x entries)
    /\ ((exists old, lookup name entries = Some (File true old)
                     /\ entries1 = set_child name (File true "") entries)
        \/ (lookup name entries = None /\ w = true
            /\ entries1 = (name, File true "") :: entries)).
Proof.
  destruct n as [| |r w entries]; try discriminate. simpl.
  destruct (lookup name entries) as [[[|] old| |]|] eqn:Hl;
    try discriminate.
  - intros [= <-].
    exists r, w, entries, (set_child name (File true "") entries).
    repeat split.
    + apply lookup_set_child_same. congruence.
    + intros x Hx. now apply lookup_set_child_other.
    + left. now exists old.
  - destruct w; [| discriminate]. intros [= <-].
    exists r, true, entries, ((name, File true "") :: entries). repeat split.
    + unfold lookup. simpl. now rewrite String.eqb_refl.
    + intros x Hx. unfold lookup. simpl.
      destruct (String.eqb_spec name x); [congruence | reflexivity].
    + right. now repeat split.
Qed.

Lemma open_w_succeeds (r w : bool) (entries : list (string * node))
    (name : string) :
  (exists old, lookup name entries = Some (File true old))
  \/ (lookup name entries = None /\ w = true) ->
  exists entries1, open_w (Dir r w entries) name = Ok (Dir r w entries1).
Proof.
  intros [[old Hl]|[Hl ->]]; simpl; rewrite Hl; eauto.
Qed.

Lemma flat_map_ext_In {A B : Type} (f g : A -> list B) (l : list A) :
  (forall x, In x l -> f x = g x) -> flat_map f l = flat_map g l.
Proof.
  induction l as [|x l IH]; intros H; simpl; [reflexivity |].
  rewrite (H x (or_introl eq_refl)), IH; [reflexivity |].
  intros y Hy. apply H. now right.
Qed.

Section IndexMd.

Context {P : OsPath}.

(** A listing does not see a regular file called "index.md": neither
    creating it nor changing it changes what is listed. *)
Lemma listed_index_md (entries entries1 : list (string * node))
    (w1 : bool) (c1 : string) :
  lookup "index.md" entries1 = Some (File w1 c1) ->
  (forall x, x <> "index.md" -> lookup x entries1 = lookup x entries) ->
  (lookup "index.md" entries = None
   \/ exists w c, lookup "index.md" entries = Some (File w c)) ->
  forall x,
    listed_dir entries1 x = listed_dir entries x
    /\ listed_file entries1 x = listed_file entries x.
Proof.
  intros H1 Hother H0 x.
  unfold listed_dir, listed_file, os_path_isdir, os_path_isfile.
  rewrite !with_child_lookup.
  destruct (String.eqb_spec x "index.md") as [->|Hx].
  - rewrite H1. destruct H0 as [->|(w & c & ->)]; simpl;
      now rewrite ?andb_false_r.
  - now rewrite (Hother x Hx).
Qed.

Lemma listing_ext_fragments (r w w' : bool)
    (entries entries' : list (string * node))
    (root_path current_path : string) (depth : nat) :
  markdown_files_of entries' = markdown_files_of entries ->
  directories_of entries' = directories_of entries ->
  (forall d, In d (directories_of entries) ->
     with_child d
       (fun c => listing c root_path (os_path_join current_path d)
                         (S depth)) [] entries'
     = with_child d
         (fun c => listing c root_path (os_path_join current_path d)
                           (S depth)) [] entries) ->
  listing (Dir r w' entries') root_path current_path depth
  = listing (Dir r w entries) root_path current_path depth.
Proof.
  intros Hf Hd Hl. destruct r; cbn [listing]; [| reflexivity].
  rewrite Hf, Hd. f_equal. apply flat_map_ext_In. intros d Hin.
  now rewrite (Hl d Hin).
Qed.

Lemma listing_ext (r w w' : bool) (entries entries' : list (string * node))
    (root_path current_path : string) (depth : nat) :
  markdown_files_of entries' = markdown_files_of entries ->
  directories_of entries' = directories_of entries ->
  (forall d, In d (directories_of entries)
             -> lookup d entries' = lookup d entries) ->
  listing (Dir r w' entries') root_path current_path depth
  = listing (Dir r w entries) root_path current_path depth.
Proof.
  intros Hf Hd Hl. apply listing_ext_fragments; try assumption.
  intros d Hin. now rewrite !with_child_lookup, (Hl d Hin).
Qed.

Lemma open_w_index_listed (r w : bool) (entries entries1 : list (string * node)) :
  open_w (Dir r w entries) "index.md" = Ok (Dir r w entries1) ->
  markdown_files_of entries1 = markdown_files_of entries
  /\ directories_of entries1 = directories_of entries
  /\ (forall d, In d (directories_of entries)
                -> lookup d entries1 = lookup d entries).
Proof.
  intros Ho. apply open_w_Ok in Ho
    as (r0 & w0 & e0 & e1 & [= <- <- <-] & [= <-] & H1 & Hother & Hcase).
  assert (Hpt := listed_index_md entries entries1 true "" H1 Hother).
  assert (H0 : lookup "index.md" entries = None
               \/ exists w c, lookup "index.md" entries = Some (File w c)).
  { destruct Hcase as [(old & Hl & _)|(Hl & _)]; [right; eauto | now left]. }
  specialize (Hpt H0).
  assert (Hnames : forall f : string -> bool,
             f "index.md" = false ->
             filter f (Py.sorted (map fst entries1))
             = filter f (Py.sorted (map fst entries))).
  { intros f Hf. destruct Hcase as [(old & _ & ->)|(_ & _ & ->)].
    - now rewrite map_fst_set_child.
    - simpl. now apply filter_insert. }
  unfold markdown_files_of, directories_of. repeat split.
  - rewrite (filter_ext _ _ (fun x => proj2 (Hpt x))). apply Hnames.
    unfold listed_file. now rewrite andb_false_r.
  - rewrite (filter_ext _ _ (fun x => proj1 (Hpt x))). apply Hnames.
    unfold listed_dir, os_path_isdir. rewrite with_child_lookup.
    now destruct H0 as [->|(w0 & c & ->)].
  - intros d Hd. apply Hother. intros ->.
    apply filter_In in Hd as [_ Hd].
    unfold listed_dir, os_path_isdir in Hd.
    rewrite with_child_lookup in Hd.
    now destruct H0 as [H0|(w0 & c & H0)]; rewrite H0 in Hd.
Qed.

End IndexMd.

(* ------------------------------------------------------------------ *)
(** * The index file *)

Section IndexFile.

Context {P : OsPath}.

(** The call, once [open] has succeeded. *)
Lemma generate_markdown_index_opened (r w : bool)
    (entries entries1 : list (string * node))
    (root_path output_file : string) :
  let name := os_path_basename output_file in
  let root := os_path_normpath root_path in
  let lines := listing (Dir r w entries1) root root 0 in
  open_w (Dir r w entries) name = Ok (Dir r w entries1) ->
  generate_markdown_index root_path output_file (Dir r w entries)
  = (Dir r w
       (set_child name
          (File true ("# " ++ os_path_basename root ++ Py.LF ++ Py.LF
                 ++ "## 目录" ++ Py.LF ++ Py.LF
                 ++ match lines with
                    | [] => "* 暂无内容" ++ Py.LF
                    | _ => render lines
                    end))
          entries1),
     Ok tt).
Proof.
  intros name root lines Ho. unfold generate_markdown_index.
  fold name root. rewrite Ho.
  rewrite generate_nested_list_listing by reflexivity. fold lines.
  rewrite truthy_strip_render. cbn [write_file].
  destruct lines; cbn [List.length Nat.eqb negb];
    now rewrite !str_app_assoc.
Qed.

(** C10. For the output file "index.md" of the root: a root that cannot
    be read gets the line "* [无法访问目录]" as the body of its index;
    the line "* 暂无内容" is written exactly when the listing of the root
    has no line at all, which takes a root that can be read and shows
    neither a Markdown file nor a directory; in every other case the
    body is the nested list itself. *)
Theorem index_body_cases (r w : bool) (entries : list (string * node))
    (root_path output_file : string) :
  let root := os_path_normpath root_path in
  os_path_basename output_file = "index.md" ->
  (exists old, lookup "index.md" entries = Some (File true old))
  \/ (lookup "index.md" entries = None /\ w = true) ->
  exists (final : list (string * node)) (nested_list body : string),
    generate_nested_list (Dir r w entries) root root 0 = Ok nested_list
    /\ generate_markdown_index root_path output_file (Dir r w entries)
       = (Dir r w final, Ok tt)
    /\ lookup "index.md" final
       = Some (File true ("# " ++ os_path_basename root ++ Py.LF ++ Py.LF
                     ++ "## 目录" ++ Py.LF ++ Py.LF ++ body))
    /\ (r = false -> body = "* [无法访问目录]" ++ Py.LF)
    /\ (listing (Dir r w entries) root root 0 = []
        -> body = "* 暂无内容" ++ Py.LF)
    /\ (listing (Dir r w entries) root root 0 <> []
        -> body = nested_list /\ nested_list <> "")
    /\ (listing (Dir r w entries) root root 0 = []
        <-> r = true /\ markdown_files_of entries = []
            /\ directories_of entries = []).
Proof.
  intros root Hname Hopen.
  destruct (open_w_succeeds r w entries "index.md" Hopen) as [listed Ho].
  pose proof Ho as Ho'. rewrite <- Hname in Ho'.
  pose proof (generate_markdown_index_opened r w entries listed
                root_path output_file Ho') as Hgen.
  cbv zeta in Hgen. fold root in Hgen. rewrite Hname in Hgen.
  destruct (open_w_index_listed r w entries listed Ho) as (Hf & Hd & Hl).
  rewrite (listing_ext r w w entries listed root root 0 Hf Hd Hl) in Hgen.
  set (lines := listing (Dir r w entries) root root 0) in *.
  eexists. exists (render lines). eexists.
  split; [now apply generate_nested_list_listing |].
  split; [exact Hgen |].
  split; [apply lookup_set_child_same;
          apply open_w_Ok in Ho
            as (? & ? & ? & ? & [= <- <- <-] & [= <-] & H1 & _);
          congruence |].
  split; [intros ->; subst lines; cbn [listing]; rewrite render_cons;
          cbn [render_entry Py.mul]; change (render []) with "";
          now rewrite str_app_nil_r |].
  split; [now intros -> |].
  split; [| apply listing_empty].
  intros Hne. destruct lines as [|e lines]; [now elim Hne |].
  split; [reflexivity |].
  intros H. pose proof (render_star (e :: lines)) as Hs.
  rewrite H in Hs. discriminate.
Qed.

End IndexFile.

Lemma index_body_cases_witness :
  exists final,
    generate_markdown_index (P := Sample.host) "/home/u/noread"
      "/home/u/noread/index.md" (Dir false true [("q.md", File true "")])
    = (Dir false true final, Ok tt)
    /\ lookup "index.md" final
       = Some (File true ("# noread" ++ Py.LF ++ Py.LF ++ "## 目录" ++ Py.LF
                     ++ Py.LF ++ "* [无法访问目录]" ++ Py.LF)).
Proof.
  destruct (index_body_cases (P := Sample.host) false true
              [("q.md", File true "")] "/home/u/noread"
              "/home/u/noread/index.md")
    as (final & nested_list & body & _ & Hgen & Hl & Hr & _).
  - reflexivity.
  - right. split; reflexivity.
  - exists final. split; [exact Hgen |].
    rewrite Hl, (Hr eq_refl). reflexivity.
Defined.

(* ------------------------------------------------------------------ *)
(** * Every depth *)

Lemma update_child_set_child (name : string) (f : node -> node)
    (entries : list (string * node)) :
  update_child name f entries
  = match lookup name entries with
    | Some c => set_child name (f c) entries
    | None => entries
    end.
Proof.
  unfold lookup.
  induction entries as [|[nm c0] entries IH]; simpl; [reflexivity |].
  destruct (nm =? name) eqn:Hnm; simpl; [now rewrite ?Hnm |].
  rewrite IH.
  destruct (with_child name Some None entries); simpl;
    now rewrite ?Hnm.
Qed.

Section Depth.

Context {P : OsPath}.

Lemma unique_names_Dir (r w : bool) (entries : list (string * node)) :
  unique_names (Dir r w entries)
  <-> NoDup (map fst entries)
      /\ Forall (fun e => unique_names (snd e)) entries.
Proof.
  cbn [unique_names].
  assert (H : fold_right (fun e acc => unique_names (snd e) /\ acc) True
                         entries
              <-> Forall (fun e => unique_names (snd e)) entries).
  { induction entries as [|e entries IH]; simpl.
    - split; [constructor | trivial].
    - rewrite IH. split.
      + intros [? ?]. now constructor.
      + intros H. inversion H. now split. }
  now rewrite H.
Qed.

Lemma valid_names_Dir (r w : bool) (entries : list (string * node)) :
  valid_names (Dir r w entries)
  <-> Forall (fun e => valid_name (fst e) = true /\ valid_names (snd e))
             entries.
Proof.
  cbn [valid_names].
  induction entries as [|e entries IH]; simpl.
  - split; [constructor | trivial].
  - rewrite IH. split.
    + intros (? & ? & ?). now constructor.
    + intros H. inversion H as [|? ? [? ?] ?]. now repeat split.
Qed.

(** A property of the lines of one level holds of every line of a
    listing. *)
Lemma listing_Forall (Q : entry -> Prop) (root_path : string) :
  (forall entries depth current_path md_file,
      listed_file entries md_file = true ->
      Q (FileEntry depth current_path md_file (Py.drop_last 3 md_file)
                   (file_link root_path current_path md_file))) ->
  (forall entries depth directory,
      listed_dir entries directory = true -> Q (DirEntry depth directory)) ->
  (forall depth, Q (Denied depth)) ->
  forall n current_path depth,
    Forall Q (listing n root_path current_path depth).
Proof.
  intros HF HD HX.
  induction n as [content| |r w entries IH] using node_rect_entries;
    intros current_path depth; cbn [listing]; try constructor.
  destruct r; [| repeat constructor; apply HX].
  apply Forall_app. split.
  - apply Forall_forall. intros e He.
    apply in_map_iff in He as (f & <- & Hf).
    apply filter_In in Hf as [_ Hf]. now apply (HF entries).
  - apply Forall_flat_map, Forall_forall. intros d Hd.
    apply filter_In in Hd as [_ Hd].
    constructor; [now apply (HD entries) |].
    rewrite with_child_lookup.
    destruct (lookup d entries) as [c|] eqn:Hl; [| constructor].
    rewrite Forall_forall in IH.
    apply (IH (d, c)). now apply lookup_In.
Qed.

(** C7. At every depth of the nested list of a directory, no line is
    the line of a file called "index.md". *)
Theorem index_md_never_listed (n : node) (root_path current_path : string)
    (base_indent : nat) :
  isdir n = true ->
  generate_nested_list n root_path current_path base_indent
  = Ok (render (listing n root_path current_path base_indent))
  /\ forall depth dir md_file display_name file_link,
       In (FileEntry depth dir md_file display_name file_link)
          (listing n root_path current_path base_indent)
       -> md_file <> "index.md".
Proof.
  intros Hn. split; [now apply generate_nested_list_listing |].
  intros depth dir md_file display_name link Hin.
  pose (Q := fun e => match e with
                      | FileEntry _ _ f _ _ => f <> "index.md"
                      | _ => True
                      end).
  assert (H : Forall Q (listing n root_path current_path base_indent)).
  { apply listing_Forall; unfold Q; try easy.
    intros entries _ _ f Hf.
    apply listed_file_lookup in Hf as (_ & _ & _ & _ & Hi). exact Hi. }
  rewrite Forall_forall in H. exact (H _ Hin).
Qed.

Lemma visits_isdir (n : node) (ds : list string) :
  visits n ds = true -> isdir n = true.
Proof. destruct ds, n; simpl; congruence. Qed.

Lemma update_at_isdir (n c : node) (ds : list string) :
  visits n ds = true -> isdir c = true -> isdir (update_at ds c n) = true.
Proof.
  destruct ds; simpl; [easy |]. destruct n; try discriminate. easy.
Qed.

(** Putting a node of the same kind in the place of an entry changes
    neither the files nor the directories a listing shows. *)
Lemma set_child_same_kind (name : string) (c c' : node)
    (entries : list (string * node)) :
  lookup name entries = Some c ->
  isdir c' = isdir c -> isfile c' = isfile c ->
  markdown_files_of (set_child name c' entries) = markdown_files_of entries
  /\ directories_of (set_child name c' entries) = directories_of entries.
Proof.
  intros Hl Hd Hf.
  assert (Hpt : forall x,
             listed_dir (set_child name c' entries) x
             = listed_dir entries x
             /\ listed_file (set_child name c' entries) x
                = listed_file entries x).
  { intros x. unfold listed_dir, listed_file, os_path_isdir, os_path_isfile.
    rewrite !with_child_lookup.
    destruct (String.eqb_spec x name) as [->|Hx].
    - rewrite lookup_set_child_same, Hl by congruence. now rewrite Hd, Hf.
    - now rewrite lookup_set_child_other. }
  unfold markdown_files_of, directories_of. rewrite map_fst_set_child.
  split; apply filter_ext; intros x; apply Hpt.
Qed.

(** The lines around the fragment of a visited directory do not depend
    on the directory. *)
Lemma listing_frame (root_path : string) (ds : list string) :
  forall n current_path depth,
    unique_names n -> visits n ds = true ->
    exists pre post,
      forall c, isdir c = true ->
        listing (update_at ds c n) root_path current_path depth
        = (pre ++ listing c root_path (descend current_path ds)
                          (depth + List.length ds)
               ++ post)%list.
Proof.
  induction ds as [|d ds IH]; intros n current_path depth Hu Hv.
  - exists [], []. intros c _. cbn. now rewrite Nat.add_0_r, app_nil_r.
  - destruct n as [| |[|] w entries]; try discriminate.
    cbn [visits] in Hv. apply andb_true_iff in Hv as [Hign Hv].
    apply negb_true_iff in Hign.
    rewrite with_child_lookup in Hv.
    destruct (lookup d entries) as [c0|] eqn:Hl; [| discriminate].
    apply unique_names_Dir in Hu as [Hnd Hall].
    rewrite Forall_forall in Hall.
    pose proof (Hall _ (lookup_In _ _ _ Hl)) as Hu0. cbn [snd] in Hu0.
    destruct (IH c0 (os_path_join current_path d) (S depth) Hu0 Hv)
      as (pre0 & post0 & Hframe).
    assert (Hin : In d (directories_of entries)).
    { apply filter_In. split.
      - apply sorted_In. apply lookup_In in Hl.
        now apply (in_map fst) in Hl.
      - unfold listed_dir, os_path_isdir.
        now rewrite with_child_lookup, Hl, (visits_isdir _ _ Hv), Hign. }
    assert (Hnd' : NoDup (directories_of entries))
      by (apply NoDup_filter; now apply sorted_NoDup).
    destruct (in_split _ _ Hin) as (l1 & l2 & Hsplit).
    rewrite Hsplit in Hnd'. apply NoDup_remove_2 in Hnd'.
    set (g := fun es directory =>
                DirEntry depth directory
                :: with_child directory
                     (fun c => listing c root_path
                                 (os_path_join current_path directory)
                                 (S depth)) [] es).
    exists (map (fun md_file =>
                   FileEntry depth current_path md_file
                             (Py.drop_last 3 md_file)
                             (file_link root_path current_path md_file))
                (markdown_files_of entries)
            ++ flat_map (g entries) l1 ++ DirEntry depth d :: pre0)%list,
           (post0 ++ flat_map (g entries) l2)%list.
    intros c Hc. cbn [update_at]. rewrite update_child_set_child, Hl.
    set (c0' := update_at ds c c0).
    assert (Hkind : isdir c0' = isdir c0 /\ isfile c0' = isfile c0).
    { pose proof (visits_isdir _ _ Hv) as H0.
      pose proof (update_at_isdir _ _ _ Hv Hc) as H1. fold c0' in H1.
      destruct c0, c0'; try discriminate. now split. }
    destruct Hkind as [Hkd Hkf].
    destruct (set_child_same_kind d c0 c0' entries Hl Hkd Hkf) as [Hmf Hdir].
    cbn [listing]. rewrite Hmf, Hdir, Hsplit.
    fold (g (set_child d c0' entries)).
    rewrite flat_map_app. cbn [flat_map].
    assert (Hother : forall l, ~ In d l ->
               flat_map (g (set_child d c0' entries)) l
               = flat_map (g entries) l).
    { intros l Hnot. apply flat_map_ext_In. intros x Hx. unfold g.
      rewrite !with_child_lookup, lookup_set_child_other; [reflexivity |].
      intros ->. now apply Hnot. }
    rewrite !Hother
      by (intros H; apply Hnd'; apply in_or_app; tauto).
    unfold g at 2. rewrite with_child_lookup, lookup_set_child_same
      by congruence.
    unfold c0'. rewrite (Hframe c Hc).
    cbn [descend fold_left List.length].
    rewrite Nat.add_succ_r. cbn [plus].
    now rewrite <- !app_assoc, <- ?app_comm_cons, <- ?app_assoc.
Qed.

End Depth.


Section Local.

Context {P : OsPath}.

(** C4. A directory that cannot be read is rendered as the one line
    "* [无法访问目录]" at its indentation, whatever it holds. When the
    recursion reaches it at [ds] below [n], that line stands in the
    fragment of [n] between a text before and a text after that are the
    same for every directory put in its place: what is rendered for its
    siblings and ancestors does not depend on it. *)
Theorem unreadable_directory_local (n : node) (ds : list string)
    (root_path current_path : string) (base_indent : nat) :
  unique_names n -> visits n ds = true ->
  (forall w entries root current depth,
      generate_nested_list (Dir false w entries) root current depth
      = Ok (Py.mul "    " depth ++ "* [无法访问目录]" ++ Py.LF))
  /\ exists pre post : string,
       (forall w entries,
           generate_nested_list (update_at ds (Dir false w entries) n)
                                root_path current_path base_indent
           = Ok (pre
                 ++ (Py.mul "    " (base_indent + List.length ds)
                     ++ "* [无法访问目录]" ++ Py.LF)
                 ++ post))
       /\ (forall c, isdir c = true ->
             exists sub,
               generate_nested_list c root_path (descend current_path ds)
                                    (base_indent + List.length ds)
               = Ok sub
               /\ generate_nested_list (update_at ds c n) root_path
                                       current_path base_indent
                  = Ok (pre ++ sub ++ post)).
Proof.
  intros Hu Hv. split; [reflexivity |].
  destruct (listing_frame root_path ds n current_path base_indent Hu Hv)
    as (pre & post & Hframe).
  exists (render pre), (render post).
  assert (Hall : forall c, isdir c = true ->
             generate_nested_list (update_at ds c n) root_path
                                  current_path base_indent
             = Ok (render pre
                   ++ render (listing c root_path
                                      (descend current_path ds)
                                      (base_indent + List.length ds))
                   ++ render post)).
  { intros c Hc.
    rewrite generate_nested_list_listing
      by (now apply update_at_isdir).
    now rewrite (Hframe c Hc), !render_app. }
  split.
  - intros w entries. rewrite (Hall (Dir false w entries) eq_refl).
    cbn [listing]. rewrite render_cons. cbn [render_entry].
    change (render []) with "". now rewrite str_app_nil_r.
  - intros c Hc. eexists. split; [| now apply Hall].
    now apply generate_nested_list_listing.
Qed.

End Local.

Lemma unreadable_directory_local_witness :
  exists pre post,
    generate_nested_list (P := Sample.host) (Dir true true Sample.proj)
                         "/home/u/proj" "/home/u/proj" 0
    = Ok (pre ++ ("    * [无法访问目录]" ++ Py.LF) ++ post).
Proof.
  destruct (unreadable_directory_local (P := Sample.host)
              (Dir true true Sample.proj) ["locked"]
              "/home/u/proj" "/home/u/proj" 0)
    as (_ & pre & post & Hdenied & _).
  - solve_unique_names.
  - reflexivity.
  - exists pre, post. exact (Hdenied true [("x.md", File true "")]).
Defined.

Lemma index_md_never_listed_witness :
  generate_nested_list (P := Sample.host) (Dir true true Sample.proj)
                       "/home/u/proj" "/home/u/proj" 0
  = Ok (render (listing (P := Sample.host) (Dir true true Sample.proj)
                        "/home/u/proj" "/home/u/proj" 0))
  /\ forall depth dir md_file display_name file_link,
       In (FileEntry depth dir md_file display_name file_link)
          (listing (P := Sample.host) (Dir true true Sample.proj)
                   "/home/u/proj" "/home/u/proj" 0)
       -> md_file <> "index.md".
Proof.
  apply (index_md_never_listed (P := Sample.host)). reflexivity.
Defined.

(* ------------------------------------------------------------------ *)
(** * [posixpath] keeps its promises *)

Section PosixFacts.

Import posixpath.

Local Abbreviation SEP := (String sep "").

Lemma substring_split (s : string) (k m : nat) :
  k + m = String.length s -> substring 0 k s ++ substring k m s = s.
Proof.
  revert k m. induction s as [|c s IH]; intros k m H; simpl in H.
  - assert (k = 0) by lia. assert (m = 0) by lia. now subst.
  - destruct k as [|k].
    + simpl in H. subst m. simpl. f_equal.
      clear IH. induction s as [|c' s IHs]; simpl; [reflexivity |].
      now rewrite IHs.
    + simpl. rewrite IH by lia. reflexivity.
Qed.

Lemma endswith_split (s suffix : string) :
  Py.endswith s suffix = true
  -> s = Py.drop_last (String.length suffix) s ++ suffix.
Proof.
  unfold Py.endswith, Py.drop_last. intros H.
  apply andb_true_iff in H as [Hle Heq].
  apply Nat.leb_le in Hle. apply String.eqb_eq in Heq.
  rewrite <- Heq at 2. symmetry. apply substring_split. lia.
Qed.

Lemma substring_app_r (a b : string) :
  substring (String.length a) (String.length b) (a ++ b) = b.
Proof.
  induction a as [|c a IH]; simpl; [| exact IH].
  induction b as [|c b IHb]; simpl; [reflexivity | now rewrite IHb].
Qed.

Lemma endswith_app (a suffix : string) : Py.endswith (a ++ suffix) suffix = true.
Proof.
  unfold Py.endswith. rewrite str_length_app.
  replace (String.length a + String.length suffix - String.length suffix)
    with (String.length a) by lia.
  rewrite substring_app_r, String.eqb_refl, andb_true_r.
  apply Nat.leb_le. lia.
Qed.

Lemma app_last_inj (a b : string) (x y : ascii) :
  a ++ String x "" = b ++ String y "" -> x = y.
Proof.
  revert b. induction a as [|c a IH]; intros [|d b]; simpl; intros H.
  - congruence.
  - injection H as _ H. destruct b; discriminate.
  - injection H as _ H. destruct a; discriminate.
  - injection H as _ H. now apply IH in H.
Qed.

Lemma nonempty_last (s : string) :
  s <> "" -> exists s' x, s = s' ++ String x "".
Proof.
  induction s as [|c s IH]; [congruence |]. intros _.
  destruct s as [|d s].
  - now exists "", c.
  - destruct IH as (s' & x & Hs); [discriminate |].
    exists (String c s'), x. simpl. now rewrite <- Hs.
Qed.

(** A valid name, in pieces. *)
Lemma name_ok_parts (x : string) :
  name_ok x = true ->
  x <> "" /\ Py.has sep x = false /\ x <> curdir /\ x <> pardir.
Proof.
  unfold name_ok. rewrite !andb_true_iff, !negb_true_iff.
  rewrite !String.eqb_neq. tauto.
Qed.

Lemma name_ok_first (x : string) :
  name_ok x = true -> Py.startswith x SEP = false.
Proof.
  intros H. apply name_ok_parts in H as (Hne & Hs & _).
  destruct x as [|c x]; [congruence |].
  simpl in Hs. apply orb_false_iff in Hs as [Hc _].
  unfold Py.startswith.
  change (prefix (String sep "") (String c x))
    with (if ascii_dec sep c then prefix "" x else false).
  destruct (ascii_dec sep c) as [<-|]; [| reflexivity].
  now rewrite Ascii.eqb_refl in Hc.
Qed.

(** Nothing that ends in a valid name ends in a separator. *)
Lemma name_ok_last (a x : string) :
  name_ok x = true -> Py.endswith (a ++ x) SEP = false.
Proof.
  intros H. apply name_ok_parts in H as (Hne & Hs & _).
  destruct (nonempty_last x Hne) as (x' & y & ->).
  destruct (Py.endswith (a ++ x' ++ String y "") SEP) eqn:He;
    [| reflexivity].
  apply endswith_split in He. rewrite <- str_app_assoc in He.
  apply app_last_inj in He. subst y.
  rewrite has_app in Hs. apply orb_false_iff in Hs as [_ Hs].
  vm_compute in Hs. discriminate.
Qed.

Lemma join_name (a x : string) :
  a <> "" -> Py.endswith a SEP = false -> name_ok x = true
  -> join a x = a ++ SEP ++ x.
Proof.
  intros Ha He Hx. unfold join.
  rewrite (name_ok_first x Hx), He.
  apply String.eqb_neq in Ha. now rewrite Ha.
Qed.

Local Abbreviation abs := posix_path.

Lemma py_join_snoc (comps : list string) (x : string) :
  comps <> [] ->
  Py.join sep (comps ++ [x])%list = Py.join sep comps ++ SEP ++ x.
Proof.
  unfold Py.join.
  induction comps as [|c comps IH]; [congruence |]. intros _.
  destruct comps as [|c' comps]; [reflexivity |].
  change (String.concat SEP ((c :: c' :: comps) ++ [x])%list)
    with (c ++ SEP ++ String.concat SEP ((c' :: comps) ++ [x])%list).
  rewrite IH by discriminate.
  change (String.concat SEP (c :: c' :: comps))
    with (c ++ SEP ++ String.concat SEP (c' :: comps)).
  now rewrite !str_app_assoc.
Qed.

Lemma py_join_last (comps : list string) (x : string) :
  exists a, Py.join sep (comps ++ [x])%list = a ++ x.
Proof.
  destruct comps as [|c comps].
  - now exists "".
  - rewrite py_join_snoc by discriminate.
    exists (Py.join sep (c :: comps) ++ SEP). now rewrite str_app_assoc.
Qed.

Lemma join_abs (comps : list string) (x : string) :
  Forall (fun c => name_ok c = true) comps -> name_ok x = true ->
  join (abs comps) x = abs (comps ++ [x])%list.
Proof.
  intros Hc Hx. destruct comps as [|c comps].
  - unfold join, posix_path. now rewrite (name_ok_first x Hx).
  - assert (Hlast : exists a y, name_ok y = true
                                /\ abs (c :: comps) = a ++ y).
    { destruct (exists_last (l := c :: comps)) as (l' & y & Hl);
        [discriminate |].
      rewrite Hl in Hc |- *. apply Forall_app in Hc as [_ Hy].
      inversion Hy; subst.
      destruct (py_join_last l' y) as (a & Ha).
      exists ("/" ++ a), y. split; [assumption |].
      unfold posix_path. now rewrite Ha. }
    destruct Hlast as (a & y & Hy & Ha).
    rewrite join_name; [| discriminate | rewrite Ha; now apply name_ok_last
                        | exact Hx].
    unfold posix_path. rewrite py_join_snoc by discriminate.
    reflexivity.
Qed.

Lemma descend_abs (cwd : string) (comps ds : list string) :
  Forall (fun c => name_ok c = true) comps ->
  Forall (fun c => name_ok c = true) ds ->
  descend (P := posix cwd) (abs comps) ds = abs (comps ++ ds)%list.
Proof.
  intros Hc Hd. revert comps Hc.
  induction Hd as [|d ds Hd Hds IH]; intros comps Hc;
    unfold descend in *; cbn [fold_left os_path_join posix] in *.
  - now rewrite app_nil_r.
  - rewrite join_abs by assumption.
    rewrite IH by (apply Forall_app; split; [assumption | now constructor]).
    now rewrite <- app_assoc.
Qed.

(** *** [split] *)

Lemma split_nosep (a : string) : Py.has sep a = false -> Py.split sep a = [a].
Proof.
  induction a as [|c a IH]; [reflexivity |]. simpl.
  intros H. apply orb_false_iff in H as [Hc Ha].
  rewrite Hc, (IH Ha). reflexivity.
Qed.

Lemma split_app_sep (a b : string) :
  Py.has sep a = false -> Py.split sep (a ++ SEP ++ b) = a :: Py.split sep b.
Proof.
  induction a as [|c a IH]; intros H.
  - reflexivity.
  - simpl in H. apply orb_false_iff in H as [Hc Ha].
    change (Py.split sep (String c a ++ SEP ++ b))
      with (if Ascii.eqb c sep then "" :: Py.split sep (a ++ SEP ++ b)
            else match Py.split sep (a ++ SEP ++ b) with
                 | [] => [String c ""]
                 | w :: ws => String c w :: ws
                 end).
    now rewrite Hc, (IH Ha).
Qed.

Lemma split_join (comps : list string) :
  comps <> [] -> Forall (fun c => name_ok c = true) comps ->
  Py.split sep (Py.join sep comps) = comps.
Proof.
  intros Hne Hall. induction Hall as [|c comps Hc Hall IH]; [congruence |].
  apply name_ok_parts in Hc as (_ & Hs & _).
  destruct comps as [|c' comps].
  - now apply split_nosep.
  - change (Py.join sep (c :: c' :: comps))
      with (c ++ SEP ++ Py.join sep (c' :: comps)).
    rewrite split_app_sep by exact Hs. now rewrite IH.
Qed.

Lemma split_abs (comps : list string) :
  Forall (fun c => name_ok c = true) comps ->
  filter Py.truthy (Py.split sep (abs comps)) = comps.
Proof.
  intros Hall. unfold posix_path.
  change (Py.split sep ("/" ++ Py.join sep comps))
    with ("" :: Py.split sep (Py.join sep comps)).
  cbn [filter Py.truthy String.eqb negb].
  destruct comps as [|c comps]; [reflexivity |].
  rewrite split_join by (discriminate || assumption).
  apply forallb_filter_id. apply forallb_forall. intros x Hx.
  rewrite Forall_forall in Hall. apply Hall, name_ok_parts in Hx.
  unfold Py.truthy. apply negb_true_iff, String.eqb_neq. tauto.
Qed.

(** *** [normpath], [basename], [relpath] *)

Lemma normpath_fold (acc comps : list string) :
  Forall (fun c => name_ok c = true) comps ->
  fold_left (normpath_step 1) comps acc = (acc ++ comps)%list.
Proof.
  intros Hall. revert acc.
  induction Hall as [|c comps Hc Hall IH]; intros acc; simpl.
  - now rewrite app_nil_r.
  - apply name_ok_parts in Hc as (H1 & _ & H2 & H3).
    unfold normpath_step at 2.
    apply String.eqb_neq in H1, H2, H3. rewrite H1, H2, H3. simpl.
    rewrite IH. now rewrite <- app_assoc.
Qed.

Lemma startswith_first (x : ascii) (s t : string) :
  Py.startswith (String x s) SEP = Py.startswith (String x t) SEP.
Proof.
  unfold Py.startswith.
  change (prefix (String sep "") (String x s))
    with (if ascii_dec sep x then prefix "" s else false).
  change (prefix (String sep "") (String x t))
    with (if ascii_dec sep x then prefix "" t else false).
  destruct (ascii_dec sep x); [now destruct s, t | reflexivity].
Qed.

Lemma isabs_abs (comps : list string) : isabs (abs comps) = true.
Proof.
  unfold isabs, posix_path, Py.startswith. cbn.
  now destruct (Py.join _ comps).
Qed.

Lemma normpath_abs (comps : list string) :
  Forall (fun c => name_ok c = true) comps ->
  normpath (abs comps) = abs comps.
Proof.
  intros Hall. unfold normpath.
  change (abs comps =? "") with false. cbv iota.
  pose proof (isabs_abs comps) as H1. unfold isabs in H1.
  rewrite H1.
  assert (H2 : Py.startswith (abs comps) (Py.mul (String sep "") 2)
               = false).
  { unfold posix_path. destruct comps as [|c comps]; [reflexivity |].
    inversion Hall as [|? ? Hc _]; subst.
    pose proof (name_ok_first c Hc) as Hf.
    destruct (py_join_last [] c) as (a & Ha).
    change (Py.startswith ("/" ++ Py.join sep (c :: comps))
                          (Py.mul (String sep "") 2))
      with (Py.startswith (Py.join sep (c :: comps)) SEP).
    apply name_ok_parts in Hc as (Hne & _).
    destruct c as [|x c]; [congruence |].
    destruct comps as [|c' comps]; [exact Hf |].
    change (Py.join sep (String x c :: c' :: comps))
      with (String x (c ++ SEP ++ Py.join sep (c' :: comps))).
    now rewrite (startswith_first x _ c). }
  rewrite H2. cbn [andb].
  assert (Hs : fold_left (normpath_step 1) (Py.split sep (abs comps)) []
               = comps).
  { unfold posix_path.
    change (Py.split sep ("/" ++ Py.join sep comps))
      with ("" :: Py.split sep (Py.join sep comps)).
    cbn [fold_left]. change (normpath_step 1 [] "") with (@nil string).
    destruct comps as [|c comps]; [reflexivity |].
    rewrite split_join by (discriminate || assumption).
    now apply normpath_fold. }
  rewrite Hs. reflexivity.
Qed.

Lemma rfind_succ_nosep (x : string) :
  Py.has sep x = false -> Py.rfind_succ sep x = 0.
Proof.
  induction x as [|c x IH]; [reflexivity |]. simpl.
  intros H. apply orb_false_iff in H as [Hc Hx].
  now rewrite (IH Hx), Hc.
Qed.

Lemma rfind_succ_app (q x : string) :
  Py.has sep x = false ->
  Py.rfind_succ sep (q ++ SEP ++ x) = S (String.length q).
Proof.
  intros Hx. induction q as [|c q IH].
  - simpl. now rewrite (rfind_succ_nosep x Hx).
  - change (Py.rfind_succ sep (String c q ++ SEP ++ x))
      with (match Py.rfind_succ sep (q ++ SEP ++ x) with
            | O => if Ascii.eqb c sep then 1 else 0
            | S i => S (S i)
            end).
    now rewrite IH.
Qed.

Lemma drop_app (q x : string) :
  Py.drop (S (String.length q)) (q ++ SEP ++ x) = x.
Proof. induction q as [|c q IH]; [reflexivity | exact IH]. Qed.

Lemma basename_join_abs (comps : list string) (x : string) :
  Forall (fun c => name_ok c = true) comps -> name_ok x = true ->
  basename (join (abs comps) x) = x.
Proof.
  intros Hc Hx. rewrite join_abs by assumption.
  pose proof Hx as Hx'. apply name_ok_parts in Hx' as (_ & Hs & _).
  assert (H : exists q, abs (comps ++ [x])%list = q ++ SEP ++ x).
  { unfold posix_path. destruct comps as [|c comps].
    - now exists "".
    - rewrite py_join_snoc by discriminate.
      now exists ("/" ++ Py.join sep (c :: comps)). }
  destruct H as (q & ->). unfold basename.
  now rewrite rfind_succ_app, drop_app.
Qed.

Lemma common_prefix_len_app (l ds : list string) :
  common_prefix_len l (l ++ ds)%list = List.length l.
Proof.
  induction l as [|x l IH]; simpl.
  - now destruct ds.
  - now rewrite String.eqb_refl, IH.
Qed.

Lemma join_list_names (d : string) (ds : list string) :
  Forall (fun c => name_ok c = true) (d :: ds) ->
  join_list (d :: ds) = Py.join sep (d :: ds).
Proof.
  intros Hall. cbn [join_list].
  assert (H : forall l a y,
             Forall (fun c => name_ok c = true) (y :: l) ->
             fold_left join l (a ++ y)
             = a ++ Py.join sep (y :: l)).
  { induction l as [|z l IH]; intros a y Hl; [reflexivity |].
    inversion Hl as [|? ? Hy Hl']; subst.
    inversion Hl' as [|? ? Hz _]; subst.
    cbn [fold_left]. rewrite join_name.
    - rewrite <- !str_app_assoc. rewrite (IH _ z Hl').
      change (Py.join sep (y :: z :: l))
        with (y ++ SEP ++ Py.join sep (z :: l)).
      now rewrite !str_app_assoc.
    - apply name_ok_parts in Hy as (Hne & _).
      destruct a; [exact Hne | discriminate].
    - now apply name_ok_last.
    - exact Hz. }
  exact (H ds "" d Hall).
Qed.

Lemma relpath_abs (cwd : string) (comps ds : list string) :
  Forall (fun c => name_ok c = true) comps ->
  Forall (fun c => name_ok c = true) ds ->
  relpath cwd (abs (comps ++ ds)%list) (abs comps)
  = match ds with [] => "." | _ => Py.join sep ds end.
Proof.
  intros Hc Hd. unfold relpath, abspath.
  rewrite !isabs_abs.
  assert (Hcd : Forall (fun c => name_ok c = true) (comps ++ ds)%list)
    by (apply Forall_app; now split).
  rewrite !normpath_abs, !split_abs by assumption.
  rewrite common_prefix_len_app, Nat.sub_diag. cbn [repeat app].
  rewrite skipn_app, skipn_all, Nat.sub_diag. cbn [skipn app].
  destruct ds as [|d ds]; [reflexivity |].
  now apply join_list_names.
Qed.

(** On a POSIX host whose working directory is an absolute, normalised
    path, [os.path] keeps the promises the script relies on. *)
Lemma posix_laws (cwd : string) :
  posix_absolute cwd -> OsPathLaws (posix cwd) posix_absolute.
Proof.
  intros Hcwd. constructor; cbn.
  - now left.
  - exact Hcwd.
  - intros x Hx. now apply name_ok_parts in Hx.
  - intros x Hx. apply name_ok_parts in Hx. unfold curdir in Hx. tauto.
  - reflexivity.
  - intros p x (comps & Hc & ->) Hx. exists (comps ++ [x])%list.
    split; [apply Forall_app; split; [assumption | now constructor] |].
    now apply join_abs.
  - intros p (comps & Hc & ->). now apply normpath_abs.
  - intros p x (comps & Hc & ->) Hx. now apply basename_join_abs.
  - intros root ds (comps & Hc & ->) Hd.
    rewrite (descend_abs cwd) by assumption. now apply relpath_abs.
Qed.

End PosixFacts.

(* ------------------------------------------------------------------ *)
(** * Links *)

Lemma replace_join (o n s : ascii) (l : list string) :
  Py.replace o n (Py.join s l)
  = Py.join (if Ascii.eqb s o then n else s) (map (Py.replace o n) l).
Proof.
  unfold Py.join. induction l as [|x l IH]; [reflexivity |].
  destruct l as [|y l]; [reflexivity |].
  change (String.concat (String s "") (x :: y :: l))
    with (x ++ String s "" ++ String.concat (String s "") (y :: l)).
  rewrite !replace_app, IH. reflexivity.
Qed.

Lemma join_snoc (s : ascii) (l : list string) (x : string) :
  l <> [] ->
  Py.join s (l ++ [x])%list = Py.join s l ++ String s "" ++ x.
Proof.
  unfold Py.join. induction l as [|c l IH]; [congruence |]. intros _.
  destruct l as [|c' l]; [reflexivity |].
  change (String.concat (String s "") ((c :: c' :: l) ++ [x])%list)
    with (c ++ String s "" ++ String.concat (String s "") ((c' :: l) ++ [x])%list).
  rewrite IH by discriminate.
  change (String.concat (String s "") (c :: c' :: l))
    with (c ++ String s "" ++ String.concat (String s "") (c' :: l)).
  now rewrite !str_app_assoc.
Qed.

Lemma has_join_false (c s : ascii) (l : list string) :
  Py.has c (String s "") = false ->
  Forall (fun x => Py.has c x = false) l ->
  Py.has c (Py.join s l) = false.
Proof.
  intros Hs Hall. unfold Py.join.
  induction Hall as [|x l Hx Hall IH]; [reflexivity |].
  destruct l as [|y l]; [exact Hx |].
  change (String.concat (String s "") (x :: y :: l))
    with (x ++ String s "" ++ String.concat (String s "") (y :: l)).
  now rewrite !has_app, Hx, Hs, IH.
Qed.

Section Links.

Context {P : OsPath} {absolute : string -> Prop}.
Hypothesis laws : OsPathLaws P absolute.

Lemma descend_snoc (root_path : string) (ds : list string) (d : string) :
  descend root_path (ds ++ [d])%list = os_path_join (descend root_path ds) d.
Proof. unfold descend. now rewrite fold_left_app. Qed.

Lemma descend_absolute (root_path : string) (ds : list string) :
  absolute root_path -> Forall (fun x => valid_name x = true) ds ->
  absolute (descend root_path ds).
Proof.
  intros Hr Hd. revert root_path Hr.
  induction Hd as [|d ds Hd _ IH]; intros root_path Hr; [exact Hr |].
  apply IH. now apply (join_absolute P absolute laws).
Qed.

(** The relative path of a directory below the root is never ".". *)
Lemma join_names_not_dot (d : string) (ds : list string) :
  Forall (fun x => valid_name x = true) (d :: ds) ->
  Py.join os_sep (d :: ds) <> ".".
Proof.
  intros Hall. inversion Hall as [|? ? Hd Hds]; subst.
  destruct (valid_name_dot P absolute laws d Hd) as [Hdot Hne].
  destruct ds as [|d' ds]; [exact Hdot |].
  change (Py.join os_sep (d :: d' :: ds))
    with (d ++ String os_sep "" ++ Py.join os_sep (d' :: ds)).
  destruct d as [|x d]; [congruence |].
  destruct d; discriminate.
Qed.

(** The link of a file of the directory at [ds] below the root. *)
Lemma file_link_descend (root_path md_file : string) (ds : list string) :
  absolute root_path -> Forall (fun x => valid_name x = true) ds ->
  file_link root_path (descend root_path ds) md_file
  = match ds with
    | [] => md_file
    | _ => Py.replace Py.backslash Py.slash (Py.join os_sep ds)
           ++ "/" ++ md_file
    end.
Proof.
  intros Hr Hd. unfold file_link.
  rewrite (relpath_descend P absolute laws root_path ds Hr Hd).
  destruct ds as [|d ds]; [reflexivity |].
  pose proof (join_names_not_dot d ds Hd) as Hne.
  apply String.eqb_neq in Hne. now rewrite Hne.
Qed.

Lemma descend_root (root_path : string) (ds : list string) :
  absolute root_path -> Forall (fun x => valid_name x = true) ds ->
  descend root_path ds = root_path -> ds = [].
Proof.
  intros Hr Hd Heq.
  pose proof (relpath_descend P absolute laws root_path ds Hr Hd) as H1.
  pose proof (relpath_descend P absolute laws root_path [] Hr
                (Forall_nil _)) as H0.
  cbn [descend fold_left] in H0. rewrite Heq, H0 in H1.
  destruct ds as [|d ds]; [reflexivity |].
  symmetry in H1. now apply join_names_not_dot in H1.
Qed.

Lemma listing_link_spec (root_path : string) (n : node) :
  valid_names n ->
  forall ds depth,
    Forall (fun x => valid_name x = true) ds ->
    Forall (link_spec root_path)
           (listing n root_path (descend root_path ds) depth).
Proof.
  induction n as [content| |r w entries IH] using node_rect_entries;
    intros Hv ds depth Hds; cbn [listing]; try constructor.
  destruct r; [| repeat constructor].
  apply valid_names_Dir in Hv. rewrite Forall_forall in Hv, IH.
  apply Forall_app. split.
  - apply Forall_forall. intros e He.
    apply in_map_iff in He as (f & <- & Hf).
    apply filter_In in Hf as [_ Hf].
    apply listed_file_lookup in Hf as (writable & content & Hl & He & _).
    exists ds. repeat split; try assumption.
    + apply lookup_In in Hl. now apply Hv in Hl.
    + now apply endswith_split in He.
  - apply Forall_flat_map, Forall_forall. intros d Hd.
    constructor; [exact I |].
    apply filter_In in Hd as [_ Hd].
    apply listed_dir_lookup in Hd as (r' & w' & sub & Hl & _).
    rewrite with_child_lookup, Hl, <- descend_snoc.
    apply lookup_In in Hl. pose proof (Hv _ Hl) as [Hname Hsub].
    apply (IH _ Hl Hsub).
    apply Forall_app. split; [assumption | now constructor].
Qed.

End Links.

Lemma sample_absolute (comps : list string) :
  forallb posixpath.name_ok comps = true ->
  posix_absolute ("/" ++ Py.join posixpath.sep comps).
Proof.
  intros H. exists comps. split; [| reflexivity].
  apply Forall_forall. now apply forallb_forall.
Qed.

Lemma sample_laws : OsPathLaws Sample.host posix_absolute.
Proof. apply posix_laws. now apply (sample_absolute ["home"; "u"]). Qed.

(* ------------------------------------------------------------------ *)
(** * The index file of a root *)

Section IndexWritten.

Context {P : OsPath} {absolute : string -> Prop}.
Hypothesis laws : OsPathLaws P absolute.

(** C3, as the code has it. The output file is the entry [name] of the
    root, as in the call of [main]. When it can be opened (it is a regular
    file that may be written, whatever it holds, or it is missing in a
    directory that may be written), the call writes into it the heading
    with the base name of the root, an empty line, the heading "目录", an
    empty line and then the nested list of the root; when that list is
    empty, which is when the root can be read and shows neither a
    Markdown file nor a directory, the line "* 暂无内容" is written in
    its place. Nothing else in the root changes, and what the file held
    before leaves no trace. A regular file that may not be written is
    not overwritten: [open] raises [PermissionError] and the root is
    left as it was. *)
Theorem index_file_written (r w : bool) (entries : list (string * node))
    (root_path name : string) :
  absolute root_path -> valid_name name = true ->
  let output_file := os_path_join root_path name in
  ((exists old, lookup name entries = Some (File true old))
   \/ (lookup name entries = None /\ w = true) ->
   exists (listed final : list (string * node)) (nested_list body : string),
     open_w (Dir r w entries) name = Ok (Dir r w listed)
     /\ generate_nested_list (Dir r w listed) root_path root_path 0
        = Ok nested_list
     /\ generate_markdown_index root_path output_file (Dir r w entries)
        = (Dir r w final, Ok tt)
     /\ lookup name final
        = Some (File true
                  ("# " ++ os_path_basename root_path ++ Py.LF ++ Py.LF
                   ++ "## 目录" ++ Py.LF ++ Py.LF ++ body))
     /\ (forall x, x <> name -> lookup x final = lookup x entries)
     /\ (nested_list <> "" -> body = nested_list)
     /\ (nested_list = "" -> body = "* 暂无内容" ++ Py.LF)
     /\ (nested_list = ""
         <-> r = true /\ markdown_files_of listed = []
             /\ directories_of listed = [])
     /\ (name = "index.md" ->
         markdown_files_of listed = markdown_files_of entries
         /\ directories_of listed = directories_of entries))
  /\ (forall old,
        lookup name entries = Some (File false old) ->
        generate_markdown_index root_path output_file (Dir r w entries)
        = (Dir r w entries, Raise PermissionError)).
Proof.
  intros Hr Hname output_file.
  assert (Hb : os_path_basename output_file = name)
    by now apply (basename_join P absolute laws).
  assert (Hn : os_path_normpath root_path = root_path)
    by now apply (normpath_absolute P absolute laws).
  split.
  - intros Hopen.
    destruct (open_w_succeeds r w entries name Hopen) as [listed Ho].
    pose proof Ho as Ho1. rewrite <- Hb in Ho1.
    pose proof (generate_markdown_index_opened r w entries listed
                  root_path output_file Ho1) as Hgen.
    cbv zeta in Hgen. rewrite Hb, Hn in Hgen.
    set (lines := listing (Dir r w listed) root_path root_path 0) in *.
    assert (Hempty : render lines = "" <-> lines = []).
    { split; [| now intros ->].
      intros H. pose proof (render_star lines) as Hs. rewrite H in Hs.
      destruct lines; [reflexivity | discriminate]. }
    pose proof Ho as Ho'.
    apply open_w_Ok in Ho'
      as (r0 & w0 & e0 & e1 & [= <- <- <-] & [= <-] & H1 & Hother & _).
    exists listed. eexists. exists (render lines). eexists.
    split; [exact Ho |].
    split; [now apply generate_nested_list_listing |].
    split; [exact Hgen |].
    split; [apply lookup_set_child_same; congruence |].
    split; [intros x Hx;
            now rewrite lookup_set_child_other, Hother by exact Hx |].
    split; [intros Hne; destruct lines; [now elim Hne | reflexivity] |].
    split; [intros He; apply Hempty in He; now rewrite He |].
    split; [rewrite Hempty; apply listing_empty |].
    intros Hidx. rewrite Hidx in Ho.
    now destruct (open_w_index_listed r w entries listed Ho) as (? & ? & _).
  - intros old Hl. unfold generate_markdown_index.
    rewrite Hb. cbn [open_w]. now rewrite Hl.
Qed.

End IndexWritten.

Lemma index_file_written_witness :
  exists final,
    lookup "index.md" Sample.proj = Some (File true "old")
    /\ generate_markdown_index (P := Sample.host) "/home/u/proj"
         "/home/u/proj/index.md" (Dir true true Sample.proj)
       = (Dir true true final, Ok tt)
    /\ lookup "index.md" final
       = Some (File true
                 ("# proj" ++ Py.LF ++ Py.LF ++ "## 目录" ++ Py.LF ++ Py.LF
                  ++ "* [notes](notes.md)" ++ Py.LF
                  ++ "* [readme](readme.md)" ++ Py.LF
                  ++ "* [z](z.md)" ++ Py.LF
                  ++ "* a" ++ Py.LF
                  ++ "* locked" ++ Py.LF
                  ++ "    * [无法访问目录]" ++ Py.LF
                  ++ "* src" ++ Py.LF
                  ++ "    * [a\b](src/a\b.md)" ++ Py.LF
                  ++ "    * [main](src/main.md)" ++ Py.LF
                  ++ "    * deep" ++ Py.LF
                  ++ "        * [z](src/deep/z.md)" ++ Py.LF))
    /\ lookup "readme.md" final = Some (File true "x").
Proof.
  destruct (index_file_written (P := Sample.host) sample_laws true true
              Sample.proj "/home/u/proj" "index.md") as [H _].
  - now apply (sample_absolute ["home"; "u"; "proj"]).
  - reflexivity.
  - destruct H
      as (listed & final & nested_list & body & Ho & Hg & Hgen & Hl
          & Hother & Hbody & _).
    + left. exists "old". reflexivity.
    + exists final. split; [reflexivity |]. split; [exact Hgen |].
      vm_compute in Ho. injection Ho as <-.
      vm_compute in Hg. injection Hg as <-.
      rewrite Hl, Hbody by discriminate.
      split; [reflexivity |].
      rewrite Hother by discriminate. reflexivity.
Defined.

(** A regular file "index.md" that may not be written is not overwritten:
    the call raises [PermissionError] and the file holds what it held. *)
Lemma index_file_written_counterexample :
  generate_markdown_index (P := Sample.host) "/home/u/proj"
    "/home/u/proj/index.md"
    (Dir true true [("a.md", File true ""); ("index.md", File false "old")])
  = (Dir true true [("a.md", File true ""); ("index.md", File false "old")],
     Raise PermissionError)
  /\ posixpath.join "/home/u/proj" "index.md" = "/home/u/proj/index.md".
Proof. split; reflexivity. Qed.

(* ------------------------------------------------------------------ *)
(** * The driver *)

Lemma set_child_lookup_id (name : string) (c : node)
    (entries : list (string * node)) :
  lookup name entries = Some c -> set_child name c entries = entries.
Proof.
  unfold lookup.
  induction entries as [|[nm c0] entries IH]; simpl; [reflexivity |].
  destruct (String.eqb_spec nm name) as [->|Hne].
  - now intros [= ->].
  - intros H. now rewrite IH.
Qed.

Section Driver.

Context {P : OsPath}.

Lemma generate_markdown_index_kind (root_path output_file : string)
    (c : node) :
  isdir (fst (generate_markdown_index root_path output_file c)) = isdir c
  /\ isfile (fst (generate_markdown_index root_path output_file c))
     = isfile c.
Proof.
  unfold generate_markdown_index.
  destruct (open_w c (os_path_basename output_file)) as [n1|e] eqn:Ho;
    [| now split].
  apply open_w_Ok in Ho as (r & w & es & es1 & -> & -> & _).
  now destruct (generate_nested_list _ _ _ _).
Qed.

(** Generating the index of a directory again changes nothing and ends
    the same way. *)
Lemma generate_markdown_index_again (root_path output_file : string)
    (c : node) :
  generate_markdown_index root_path output_file
    (fst (generate_markdown_index root_path output_file c))
  = generate_markdown_index root_path output_file c.
Proof.
  destruct (open_w c (os_path_basename output_file)) as [n1|e] eqn:Ho.
  - pose proof Ho as Ho'.
    apply open_w_Ok in Ho'
      as (r & w & es & es1 & -> & -> & H1 & _ & _).
    pose proof (generate_markdown_index_opened r w es es1 root_path
                  output_file Ho) as Hgen.
    cbv zeta in Hgen. rewrite Hgen. cbn [fst].
    match goal with
    | |- context [set_child ?nm (File true ?content) es1] =>
        pose proof (generate_markdown_index_opened r w
                      (set_child nm (File true content) es1) es1 root_path
                      output_file) as Hagain
    end.
    cbv zeta in Hagain. rewrite Hagain; [reflexivity |].
    cbn [open_w]. rewrite lookup_set_child_same by congruence.
    now rewrite set_child_twice, (set_child_lookup_id _ _ _ H1).
  - unfold generate_markdown_index. rewrite Ho. cbn [fst]. now rewrite Ho.
Qed.

Lemma process_step (entries : list (string * node)) (out : list printed)
    (d : string) :
  process os_getcwd (entries, out) d
  = (match lookup d entries with
     | Some c => set_child d (fst (index_of d c)) entries
     | None => entries
     end,
     (out ++ [report d (lookup d entries)])%list).
Proof.
  unfold process, report, index_of.
  destruct (lookup d entries) as [c|]; [| reflexivity].
  destruct (generate_markdown_index _ _ c) as [c' [[]|e]]; reflexivity.
Qed.

(** The loop of [main] treats every directory on its own: each is left
    as generating its index leaves it, and gets its line. *)
Lemma process_fold_spec (dirs : list string) :
  NoDup dirs ->
  forall entries out,
  exists final,
    fold_left (process os_getcwd) dirs (entries, out)
    = (final,
       (out ++ map (fun d => report d (lookup d entries)) dirs)%list)
    /\ map fst final = map fst entries
    /\ forall x,
         lookup x final
         = if existsb (String.eqb x) dirs
           then option_map (fun c => fst (index_of x c)) (lookup x entries)
           else lookup x entries.
Proof.
  induction 1 as [|d dirs Hnotin Hnd IH]; intros entries out.
  - exists entries. cbn. now rewrite app_nil_r.
  - cbn [fold_left]. rewrite process_step.
    set (entries1 := match lookup d entries with
                     | Some c => set_child d (fst (index_of d c)) entries
                     | None => entries
                     end).
    assert (Hother : forall x, x <> d ->
               lookup x entries1 = lookup x entries).
    { intros x Hx. unfold entries1.
      destruct (lookup d entries); [| reflexivity].
      now apply lookup_set_child_other. }
    assert (Hsame : lookup d entries1
                    = option_map (fun c => fst (index_of d c))
                                 (lookup d entries)).
    { unfold entries1. destruct (lookup d entries) as [c|] eqn:Hl;
        [| now rewrite Hl].
      apply lookup_set_child_same. congruence. }
    destruct (IH entries1 (out ++ [report d (lookup d entries)])%list)
      as (final & Hfold & Hnames & Hlook).
    exists final. split; [| split].
    + rewrite Hfold. f_equal. rewrite <- app_assoc. cbn [app map].
      do 2 f_equal. apply map_ext_in. intros x Hx.
      rewrite Hother; [reflexivity |]. intros ->. contradiction.
    + rewrite Hnames. unfold entries1.
      destruct (lookup d entries); [apply map_fst_set_child | reflexivity].
    + intros x. rewrite Hlook. cbn [existsb].
      destruct (String.eqb_spec x d) as [->|Hx].
      * assert (Hex : existsb (String.eqb d) dirs = false).
        { apply not_true_is_false. intros H.
          apply existsb_exists in H as (y & Hy & Heq).
          apply String.eqb_eq in Heq. now subst. }
        rewrite Hex. exact Hsame.
      * cbn [orb]. now rewrite (Hother x Hx).
Qed.

(** The loop leaves alone what it is not asked to treat. *)
Lemma process_fold_other (dirs : list string) (x : string) :
  ~ In x dirs ->
  forall entries out,
    lookup x (fst (fold_left (process os_getcwd) dirs (entries, out)))
    = lookup x entries.
Proof.
  induction dirs as [|d dirs IH]; intros Hnot entries out;
    [reflexivity |].
  cbn [fold_left]. rewrite process_step.
  rewrite IH by (intros H; apply Hnot; now right).
  destruct (lookup d entries); [| reflexivity].
  apply lookup_set_child_other. intros ->. apply Hnot. now left.
Qed.

End Driver.

Lemma entries_ext (e1 e2 : list (string * node)) :
  map fst e1 = map fst e2 -> NoDup (map fst e1) ->
  (forall x, lookup x e1 = lookup x e2) -> e1 = e2.
Proof.
  revert e2. induction e1 as [|[nm c1] e1 IH]; intros [|[nm2 c2] e2];
    cbn [map fst]; try discriminate; [reflexivity |].
  intros [= <- Hnames] Hnd Hl. inversion Hnd as [|? ? Hnotin Hnd']; subst.
  pose proof (Hl nm) as Hnm. unfold lookup in Hnm. cbn in Hnm.
  rewrite String.eqb_refl in Hnm. injection Hnm as <-.
  f_equal. apply IH; try assumption.
  intros x. destruct (String.eqb_spec nm x) as [<-|Hx].
  - pose proof (proj2 (lookup_names nm e1) Hnotin) as H1.
    rewrite Hnames in Hnotin.
    pose proof (proj2 (lookup_names nm e2) Hnotin) as H2. congruence.
  - specialize (Hl x). unfold lookup in Hl |- *. cbn in Hl.
    apply String.eqb_neq in Hx. now rewrite Hx in Hl.
Qed.

Section Run.

Context {P : OsPath}.

Lemma listed_dir_names (entries : list (string * node)) (x : string) :
  listed_dir entries x = true -> In x (map fst entries).
Proof.
  intros H. apply listed_dir_lookup in H as (r & w & sub & Hl & _).
  apply lookup_In in Hl. now apply (in_map fst) in Hl.
Qed.

Lemma existsb_listed (entries : list (string * node)) (x : string) :
  existsb (String.eqb x) (filter (listed_dir entries) (map fst entries))
  = listed_dir entries x.
Proof.
  destruct (listed_dir entries x) eqn:Hx.
  - apply existsb_exists. exists x. split; [| apply String.eqb_refl].
    apply filter_In. split; [now apply listed_dir_names | exact Hx].
  - apply not_true_is_false. intros H.
    apply existsb_exists in H as (y & Hy & Heq).
    apply String.eqb_eq in Heq. subst y.
    apply filter_In in Hy as [_ Hy]. congruence.
Qed.

(** A run in a working directory that can be read. *)
Lemma main_readable (w : bool) (entries : list (string * node)) :
  NoDup (map fst entries) ->
  exists final,
    main (Dir true w entries)
    = {| status := 0;
         stdout :=
           match filter (listed_dir entries) (map fst entries) with
           | [] => [Line "当前目录下没有子目录"]
           | dirs => map (fun d => report d (lookup d entries)) dirs
           end;
         disk := Dir true w final |}
    /\ map fst final = map fst entries
    /\ forall x,
         lookup x final
         = if listed_dir entries x
           then option_map (fun c => fst (index_of x c)) (lookup x entries)
           else lookup x entries.
Proof.
  intros Hnd. unfold main. cbn [os_listdir children].
  change (filter (fun item => os_path_isdir entries item
                              && negb (is_ignored_dir item))
                 (map fst entries))
    with (filter (listed_dir entries) (map fst entries)).
  pose proof (existsb_listed entries) as Hex.
  assert (Hnd' : NoDup (filter (listed_dir entries) (map fst entries)))
    by now apply NoDup_filter.
  destruct (filter (listed_dir entries) (map fst entries)) as [|d dirs].
  - exists entries. repeat split. intros x. now rewrite <- Hex.
  - destruct (process_fold_spec (d :: dirs) Hnd' entries [])
      as (final & Hfold & Hnames & Hl).
    rewrite Hfold. exists final. repeat split; [exact Hnames |].
    intros x. now rewrite Hl, Hex.
Qed.

Lemma process_fold_out (dirs : list string) :
  forall entries out e,
    In e (snd (fold_left (process os_getcwd) dirs (entries, out))) ->
    In e out \/ exists d c, In d dirs /\ e = report d c.
Proof.
  induction dirs as [|d dirs IH]; intros entries out e; [now left |].
  cbn [fold_left]. rewrite process_step. intros H.
  apply IH in H as [H|(d' & c & Hd & ->)].
  - apply in_app_or in H as [H|[<-|[]]]; [now left |].
    right. exists d, (lookup d entries). split; [now left | reflexivity].
  - right. exists d', c. split; [now right | reflexivity].
Qed.

(** C5. In a working directory [n] whose entries have different names:
    the process ends with a status other than 0 exactly when listing [n]
    raises a permission error, after printing the one line that says so
    and without touching the disk. Otherwise it ends with status 0; each
    directory of [n] whose name is not ignored is left as generating its
    index alone leaves it and gets its own line, the success line or the
    report of the exception it raised, in the order of the listing;
    nothing else of [n] changes. *)
Theorem driver_isolates_failures (n : node) :
  isdir n = true -> NoDup (map fst (children n)) ->
  let dirs := filter (listed_dir (children n)) (map fst (children n)) in
  (status (main n) <> 0 <-> os_listdir n = Raise PermissionError)
  /\ (os_listdir n = Raise PermissionError ->
      main n = {| status := 1;
                  stdout := [Line "错误: 无法访问当前目录"];
                  disk := n |})
  /\ (os_listdir n <> Raise PermissionError ->
      status (main n) = 0
      /\ stdout (main n)
         = match dirs with
           | [] => [Line "当前目录下没有子目录"]
           | _ => map (fun d => report d (lookup d (children n))) dirs
           end
      /\ map fst (children (disk (main n))) = map fst (children n)
      /\ (forall d,
             lookup d (children (disk (main n)))
             = if listed_dir (children n) d
               then option_map (fun c => fst (index_of d c))
                               (lookup d (children n))
               else lookup d (children n))
      /\ (forall d c e,
             In d dirs -> lookup d (children n) = Some c ->
             snd (index_of d c) = Raise e ->
             In (Reported d e) (stdout (main n)))).
Proof.
  destruct n as [| |[|] w entries]; try discriminate; intros _ Hnd dirs;
    cbn [children] in *.
  - destruct (main_readable w entries Hnd) as (final & Hmain & Hnames & Hl).
    rewrite Hmain. cbn [status stdout disk children os_listdir].
    split; [split; [now intros H | discriminate] |].
    split; [discriminate |]. intros _. subst dirs.
    split; [reflexivity |].
    split; [now destruct (filter _ _) |].
    split; [exact Hnames |]. split; [exact Hl |].
    intros d c e Hd Hc He.
    assert (Hin : In (Reported d e)
                     (map (fun d => report d (lookup d entries))
                          (filter (listed_dir entries) (map fst entries)))).
    { apply in_map_iff. exists d. split; [| exact Hd].
      rewrite Hc. unfold report. now rewrite He. }
    destruct (filter _ _); [destruct Hd | exact Hin].
  - cbn. split; [split; [reflexivity | discriminate] |].
    split; [reflexivity | congruence].
Qed.

(** A second run finds every directory as the first run left it, and
    leaves it so. *)
Lemma main_again (n : node) :
  NoDup (map fst (children n)) -> main (disk (main n)) = main n.
Proof.
  destruct n as [| |[|] w entries]; try reflexivity. cbn [children].
  intros Hnd.
  destruct (main_readable w entries Hnd) as (final & Hmain & Hnames & Hl).
  rewrite Hmain. cbn [disk].
  assert (Hnd2 : NoDup (map fst final)) by now rewrite Hnames.
  destruct (main_readable w final Hnd2) as (final2 & Hmain2 & Hnames2 & Hl2).
  rewrite Hmain2.
  assert (Hlisted : forall x, listed_dir final x = listed_dir entries x).
  { intros x. unfold listed_dir, os_path_isdir.
    rewrite !with_child_lookup, Hl.
    destruct (listed_dir entries x); [| reflexivity].
    destruct (lookup x entries) as [c|]; [| reflexivity]. cbn [option_map].
    unfold index_of.
    now rewrite (proj1 (generate_markdown_index_kind _ _ c)). }
  assert (Hdirs : filter (listed_dir final) (map fst final)
                  = filter (listed_dir entries) (map fst entries)).
  { rewrite Hnames. apply filter_ext. exact Hlisted. }
  assert (Hagain : forall x c,
             index_of x (fst (index_of x c)) = index_of x c).
  { intros x c. unfold index_of. apply generate_markdown_index_again. }
  rewrite Hdirs. f_equal.
  - destruct (filter (listed_dir entries) (map fst entries)) as [|d dirs]
      eqn:Hf; [reflexivity |].
    apply map_ext_in. intros x Hx. rewrite <- Hf in Hx.
    apply filter_In in Hx as [_ Hx]. rewrite Hl, Hx.
    destruct (lookup x entries) as [c|]; [| reflexivity].
    cbn [option_map]. unfold report. now rewrite Hagain.
  - f_equal. apply entries_ext; [exact Hnames2 | now rewrite Hnames2 |].
    intros x. rewrite Hl2, Hlisted, Hl.
    destruct (listed_dir entries x); [| reflexivity].
    destruct (lookup x entries) as [c|]; [| reflexivity].
    cbn [option_map]. now rewrite Hagain.
Qed.

End Run.

(* ------------------------------------------------------------------ *)
(** * Running twice *)

Lemma lookup_perm (entries entries' : list (string * node)) (x : string) :
  NoDup (map fst entries) -> Permutation entries entries' ->
  lookup x entries' = lookup x entries.
Proof.
  intros Hnd Hp.
  assert (Hnd' : NoDup (map fst entries'))
    by (eapply Permutation_NoDup; [apply Permutation_map; exact Hp | exact Hnd]).
  destruct (lookup x entries) as [c|] eqn:Hl.
  - apply In_lookup; [exact Hnd' |].
    apply (Permutation_in _ Hp). now apply lookup_In.
  - apply lookup_names. apply lookup_names in Hl. intros Hin. apply Hl.
    apply (Permutation_in _ (Permutation_sym (Permutation_map fst Hp))).
    exact Hin.
Qed.

Section Twice.

Context {P : OsPath} {absolute : string -> Prop}.
Hypothesis laws : OsPathLaws P absolute.

(** The output file of a directory of the working directory is its
    entry "index.md". *)
Lemma index_name (d : string) :
  valid_name d = true ->
  os_path_basename (os_path_join (os_path_join os_getcwd d) "index.md")
  = "index.md".
Proof.
  intros Hd. apply (basename_join P absolute laws).
  - apply (join_absolute P absolute laws); [| exact Hd].
    apply (getcwd_absolute P absolute laws).
  - apply (valid_index P absolute laws).
Qed.

Lemma listing_set_index (r w : bool) (entries : list (string * node))
    (fw fw' : bool) (content old : string)
    (root_path current_path : string) (depth : nat) :
  lookup "index.md" entries = Some (File fw old) ->
  listing (Dir r w (set_child "index.md" (File fw' content) entries))
          root_path current_path depth
  = listing (Dir r w entries) root_path current_path depth.
Proof.
  intros Hl.
  destruct (set_child_same_kind "index.md" (File fw old) (File fw' content)
              entries Hl eq_refl eq_refl) as [Hf Hd].
  apply listing_ext; try assumption.
  intros d Hin. apply lookup_set_child_other. intros ->.
  apply filter_In in Hin as [_ Hin].
  apply listed_dir_lookup in Hin as (? & ? & ? & Hin & _). congruence.
Qed.

(** Generating the index of a directory does not change its nested
    list. *)
Lemma index_of_same_list (d : string) (c : node) :
  valid_name d = true ->
  forall root_path current_path depth,
    generate_nested_list (fst (index_of d c)) root_path current_path depth
    = generate_nested_list c root_path current_path depth.
Proof.
  intros Hd root_path current_path depth.
  unfold index_of.
  destruct (open_w c "index.md") as [n1|e] eqn:Ho.
  - pose proof Ho as Ho'.
    apply open_w_Ok in Ho'
      as (r & w & es & es1 & -> & -> & H1 & _ & _).
    pose proof (generate_markdown_index_opened r w es es1
                  (os_path_join os_getcwd d)
                  (os_path_join (os_path_join os_getcwd d) "index.md"))
      as Hgen.
    cbv zeta in Hgen. rewrite (index_name d Hd) in Hgen.
    rewrite (Hgen Ho). cbn [fst].
    rewrite !generate_nested_list_listing by reflexivity.
    rewrite (listing_set_index r w es1 true true _ "" _ _ _ H1).
    destruct (open_w_index_listed r w es es1 Ho) as (Hf & Hdir & Hl).
    now rewrite (listing_ext r w w es es1 _ _ _ Hf Hdir Hl).
  - unfold generate_markdown_index. rewrite (index_name d Hd), Ho.
    reflexivity.
Qed.

(** C6. In a working directory whose entries have different, valid
    names, a second run ends as the first did, prints what it printed
    and leaves every file as the first run left it. The index files the
    first run wrote change the nested list of no directory. And the
    nested list of a directory does not depend on the order in which the
    system lists its entries. *)
Theorem run_twice (n : node) :
  NoDup (map fst (children n)) ->
  Forall (fun x => valid_name x = true) (map fst (children n)) ->
  main (disk (main n)) = main n
  /\ (forall d c c',
         lookup d (children n) = Some c ->
         lookup d (children (disk (main n))) = Some c' ->
         forall root_path current_path depth,
           generate_nested_list c' root_path current_path depth
           = generate_nested_list c root_path current_path depth)
  /\ (forall w entries entries' root_path current_path depth,
         NoDup (map fst entries) -> Permutation entries entries' ->
         generate_nested_list (Dir true w entries') root_path current_path
                              depth
         = generate_nested_list (Dir true w entries) root_path
                                current_path depth).
Proof.
  intros Hnd Hvalid. split; [now apply main_again |]. split.
  - intros d c c' Hc Hc' root_path current_path depth.
    assert (Hd : valid_name d = true).
    { rewrite Forall_forall in Hvalid. apply Hvalid.
      apply lookup_In in Hc. now apply (in_map fst) in Hc. }
    destruct n as [| |[|] w entries]; cbn [children] in *;
      try discriminate;
      [| unfold main in Hc'; cbn [os_listdir disk children] in Hc';
         congruence].
    destruct (main_readable w entries Hnd) as (final & Hmain & _ & Hl).
    rewrite Hmain in Hc'. cbn [disk children] in Hc'.
    rewrite Hl, Hc in Hc'.
    destruct (listed_dir entries d); [| congruence].
    injection Hc' as <-. now apply index_of_same_list.
  - intros w entries entries' root_path current_path depth Hnd' Hp.
    rewrite !generate_nested_list_listing by reflexivity. do 2 f_equal.
    assert (Hs : Py.sorted (map fst entries') = Py.sorted (map fst entries))
      by (apply sorted_perm_eq, Permutation_map; now symmetry).
    assert (Hl : forall x, lookup x entries' = lookup x entries)
      by (intros x; now apply lookup_perm).
    apply listing_ext.
    + unfold markdown_files_of. rewrite Hs. apply filter_ext. intros x.
      unfold listed_file, os_path_isfile.
      now rewrite !with_child_lookup, Hl.
    + unfold directories_of. rewrite Hs. apply filter_ext. intros x.
      unfold listed_dir, os_path_isdir.
      now rewrite !with_child_lookup, Hl.
    + intros x _. apply Hl.
Qed.

End Twice.

(* ------------------------------------------------------------------ *)
(** * Ignored directories *)

Section Ignored.

Context {P : OsPath}.

Lemma is_ignored_dir_iff (d : string) :
  is_ignored_dir d = true
  <-> In d [".git"; "__pycache__"; ".DS_Store"].
Proof.
  unfold is_ignored_dir. rewrite existsb_exists. split.
  - intros (x & Hx & Heq). apply String.eqb_eq in Heq. now subst.
  - intros H. exists d. split; [exact H | apply String.eqb_refl].
Qed.

Lemma ignored_not_listed (d : string) (entries : list (string * node)) :
  is_ignored_dir d = true ->
  listed_dir entries d = false /\ listed_file entries d = false.
Proof.
  intros H. unfold listed_dir, listed_file. rewrite H.
  rewrite andb_false_r. split; [reflexivity |].
  apply is_ignored_dir_iff in H.
  destruct H as [<-|[<-|[<-|[]]]]; cbn [Py.endswith];
    now rewrite andb_false_r.
Qed.

(** What is under an ignored name changes no listing. *)
Lemma listing_ignored_child (d : string) (c : node) (r w : bool)
    (entries : list (string * node)) (root_path current_path : string)
    (depth : nat) :
  is_ignored_dir d = true ->
  listing (Dir r w (set_child d c entries)) root_path current_path depth
  = listing (Dir r w entries) root_path current_path depth.
Proof.
  intros Hd.
  assert (Hpt : forall x,
             listed_dir (set_child d c entries) x = listed_dir entries x
             /\ listed_file (set_child d c entries) x
                = listed_file entries x).
  { intros x. destruct (String.eqb_spec x d) as [->|Hx].
    - destruct (ignored_not_listed d entries Hd) as [-> ->].
      now destruct (ignored_not_listed d (set_child d c entries) Hd)
        as [-> ->].
    - unfold listed_dir, listed_file, os_path_isdir, os_path_isfile.
      now rewrite !with_child_lookup, lookup_set_child_other. }
  apply listing_ext.
  - unfold markdown_files_of. rewrite map_fst_set_child.
    apply filter_ext. intros x. apply Hpt.
  - unfold directories_of. rewrite map_fst_set_child.
    apply filter_ext. intros x. apply Hpt.
  - intros x Hx. apply lookup_set_child_other. intros ->.
    apply filter_In in Hx as [_ Hx].
    destruct (ignored_not_listed d entries Hd). congruence.
Qed.

(** An entry replaced by one of the same kind and the same listing
    leaves the listing of its directory as it was. *)
Lemma listing_congr_child (d : string) (c c' : node) (r w : bool)
    (entries : list (string * node)) :
  lookup d entries = Some c ->
  isdir c' = isdir c -> isfile c' = isfile c ->
  (forall root_path current_path depth,
      listing c' root_path current_path depth
      = listing c root_path current_path depth) ->
  forall root_path current_path depth,
    listing (Dir r w (set_child d c' entries)) root_path current_path depth
    = listing (Dir r w entries) root_path current_path depth.
Proof.
  intros Hl Hkd Hkf Hsame root_path current_path depth.
  destruct (set_child_same_kind d c c' entries Hl Hkd Hkf) as [Hf Hd].
  apply listing_ext_fragments; try assumption.
  intros x _. rewrite !with_child_lookup.
  destruct (String.eqb_spec x d) as [->|Hx].
  - rewrite lookup_set_child_same, Hl by congruence. apply Hsame.
  - now rewrite lookup_set_child_other.
Qed.

Lemma update_at_kind (path : list string) (c n : node) :
  path <> [] ->
  isdir (update_at path c n) = isdir n
  /\ isfile (update_at path c n) = isfile n.
Proof.
  destruct path as [|d path]; [congruence |]. intros _.
  now destruct n.
Qed.

Lemma listing_update_ignored (d : string) (c : node) :
  is_ignored_dir d = true ->
  forall ds n root_path current_path depth,
    listing (update_at (ds ++ [d]) c n) root_path current_path depth
    = listing n root_path current_path depth.
Proof.
  intros Hd. induction ds as [|d0 ds IH];
    intros n root_path current_path depth.
  - destruct n as [| |r w entries]; try reflexivity.
    cbn [app update_at]. rewrite update_child_set_child.
    destruct (lookup d entries); [| reflexivity].
    now apply listing_ignored_child.
  - destruct n as [| |r w entries]; try reflexivity.
    cbn [app update_at]. rewrite update_child_set_child.
    destruct (lookup d0 entries) as [c0|] eqn:Hl; [| reflexivity].
    assert (Hne : (ds ++ [d])%list <> []) by now destruct ds.
    destruct (update_at_kind (ds ++ [d]) c c0 Hne) as [Hkd Hkf].
    apply (listing_congr_child d0 c0); try assumption.
    intros. apply IH.
Qed.

(** C8. For a name [d] among ".git", "__pycache__" and ".DS_Store": no
    line of a nested list, at any depth, is the line of a directory
    called [d]; whatever is put under the name [d], anywhere in a tree,
    the nested list of the tree is the same, so the recursion never
    looks into it; and [main] leaves an entry [d] of the working
    directory as it is and prints no report about it. *)
Theorem ignored_directories_skipped (d : string) :
  In d [".git"; "__pycache__"; ".DS_Store"] ->
  is_ignored_dir d = true
  /\ (forall n root_path current_path base_indent,
         isdir n = true ->
         generate_nested_list n root_path current_path base_indent
         = Ok (render (listing n root_path current_path base_indent))
         /\ forall depth,
              ~ In (DirEntry depth d)
                   (listing n root_path current_path base_indent))
  /\ (forall n ds c root_path current_path base_indent,
         generate_nested_list (update_at (ds ++ [d]) c n) root_path
                              current_path base_indent
         = generate_nested_list n root_path current_path base_indent)
  /\ (forall n,
         lookup d (children (disk (main n))) = lookup d (children n)
         /\ forall e, ~ In (Reported d e) (stdout (main n))).
Proof.
  intros Hin. apply is_ignored_dir_iff in Hin.
  split; [exact Hin |]. split; [| split].
  - intros n root_path current_path base_indent Hn.
    split; [now apply generate_nested_list_listing |].
    intros depth H.
    pose (Q := fun e => match e with
                        | DirEntry _ x => is_ignored_dir x = false
                        | _ => True
                        end).
    assert (HQ : Forall Q (listing n root_path current_path base_indent)).
    { apply listing_Forall; unfold Q; try easy.
      intros entries _ x Hx. unfold listed_dir in Hx.
      apply andb_true_iff in Hx as [_ Hx]. now apply negb_true_iff. }
    rewrite Forall_forall in HQ. specialize (HQ _ H). unfold Q in HQ.
    congruence.
  - intros n ds c root_path current_path base_indent.
    assert (Hne : (ds ++ [d])%list <> []) by now destruct ds.
    destruct (update_at_kind (ds ++ [d]) c n Hne) as [Hkd _].
    destruct (isdir n) eqn:Hn.
    + rewrite !generate_nested_list_listing by congruence.
      now rewrite listing_update_ignored.
    + destruct (ds ++ [d])%list; [congruence |].
      now destruct n.
  - intros n.
    assert (Hnot : forall entries,
               ~ In d (filter (listed_dir entries) (map fst entries))).
    { intros entries H. apply filter_In in H as [_ H].
      destruct (ignored_not_listed d entries Hin). congruence. }
    destruct n as [| |[|] w entries]; try (split; [reflexivity |]);
      try (intros e [H|[]]; discriminate); try (intros e []).
    unfold main. cbn [os_listdir children].
    change (filter (fun item => os_path_isdir entries item
                                && negb (is_ignored_dir item))
                   (map fst entries))
      with (filter (listed_dir entries) (map fst entries)).
    specialize (Hnot entries).
    destruct (filter (listed_dir entries) (map fst entries)) as [|x dirs]
      eqn:Hf.
    + split; [reflexivity |]. intros e [H|[]]; discriminate.
    + pose proof (process_fold_other (x :: dirs) d Hnot entries []) as Hl.
      pose proof (process_fold_out (x :: dirs) entries []) as Hout.
      destruct (fold_left (process os_getcwd) (x :: dirs) (entries, []))
        as [final out].
      cbn [disk stdout children fst snd] in *. split; [exact Hl |].
      intros e He. apply Hout in He as [[]|(d' & c & Hd' & Heq)].
      assert (d' = d).
      { unfold report in Heq. destruct c as [c|]; [| congruence].
        destruct (snd (index_of d' c)); congruence. }
      subst d'. contradiction.
Qed.

End Ignored.

Lemma driver_isolates_failures_witness :
  status (main (P := Sample.host) Sample.wd) = 0
  /\ In (Reported "ro" PermissionError)
        (stdout (main (P := Sample.host) Sample.wd))
  /\ In (Reported "bad" IsADirectoryError)
        (stdout (main (P := Sample.host) Sample.wd))
  /\ lookup "empty" (children (disk (main (P := Sample.host) Sample.wd)))
     = Some (Dir true true
               [("index.md",
                 File true ("# empty" ++ Py.LF ++ Py.LF ++ "## 目录" ++ Py.LF
                       ++ Py.LF ++ "* 暂无内容" ++ Py.LF))]).
Proof.
  destruct (driver_isolates_failures (P := Sample.host) Sample.wd)
    as (_ & _ & H).
  - reflexivity.
  - unfold Sample.wd. cbn [children map fst]. solve_NoDup.
  - destruct H as (Hs & _ & _ & Hl & Hr); [discriminate |].
    split; [exact Hs |]. split; [| split].
    + apply (Hr "ro" (Dir true false [])); [| reflexivity | reflexivity].
      vm_compute. tauto.
    + apply (Hr "bad" (Dir true true [("index.md", Dir true true [])]));
        [| reflexivity | reflexivity].
      vm_compute. tauto.
    + rewrite Hl. reflexivity.
Defined.

Lemma run_twice_witness :
  main (P := Sample.host) (disk (main (P := Sample.host) Sample.wd))
  = main (P := Sample.host) Sample.wd.
Proof.
  destruct (run_twice (P := Sample.host) sample_laws Sample.wd) as [H _].
  - unfold Sample.wd. cbn [children map fst]. solve_NoDup.
  - unfold Sample.wd. cbn [children map fst]. repeat constructor.
  - exact H.
Defined.

Lemma ignored_directories_skipped_witness :
  is_ignored_dir "__pycache__" = true
  /\ lookup "__pycache__"
            (children (disk (main (P := Sample.host) Sample.wd)))
     = Some (Dir true true []).
Proof.
  destruct (ignored_directories_skipped (P := Sample.host) "__pycache__")
    as (Hi & _ & _ & Hm).
  - right. now left.
  - split; [exact Hi |]. destruct (Hm Sample.wd) as [-> _]. reflexivity.
Defined.

(* ------------------------------------------------------------------ *)
(** * The scenarios of the specification, run *)

(** A root with "readme.md", "notes.md" and a directory "src" that holds
    "main.md". *)
Example scenario_project :
  generate_nested_list (P := Sample.host)
    (Dir true true
       [("readme.md", File true ""); ("notes.md", File true "");
        ("src", Dir true true [("main.md", File true "")])])
    "/home/u/proj" "/home/u/proj" 0
  = Ok ("* [notes](notes.md)" ++ Py.LF
        ++ "* [readme](readme.md)" ++ Py.LF
        ++ "* src" ++ Py.LF
        ++ "    * [main](src/main.md)" ++ Py.LF).
Proof. reflexivity. Qed.

(** The file "z.md" comes before the directory "a". *)
Example scenario_files_first :
  generate_nested_list (P := Sample.host)
    (Dir true true [("a", Dir true true []); ("z.md", File true "")])
    "/home/u/proj" "/home/u/proj" 0
  = Ok ("* [z](z.md)" ++ Py.LF ++ "* a" ++ Py.LF).
Proof. reflexivity. Qed.

(** A directory that cannot be read, between two siblings. *)
Example scenario_unreadable :
  generate_nested_list (P := Sample.host)
    (Dir true true
       [("a", Dir true true [("x.md", File true "")]);
        ("b", Dir false true [("y.md", File true "")]);
        ("c", Dir true true [("z.md", File true "")])])
    "/home/u/proj" "/home/u/proj" 0
  = Ok ("* a" ++ Py.LF ++ "    * [x](a/x.md)" ++ Py.LF
        ++ "* b" ++ Py.LF ++ "    * [无法访问目录]" ++ Py.LF
        ++ "* c" ++ Py.LF ++ "    * [z](c/z.md)" ++ Py.LF).
Proof. reflexivity. Qed.

(** An empty directory of the working directory gets the placeholder, and
    the failures of "ro" and "bad" stop nothing. *)
Example scenario_run :
  status (main (P := Sample.host) Sample.wd) = 0
  /\ stdout (main (P := Sample.host) Sample.wd)
     = [Line "已成功生成索引文件: /home/u/proj/index.md";
        Line "已成功生成索引文件: /home/u/empty/index.md";
        Reported "ro" PermissionError;
        Reported "bad" IsADirectoryError;
        Line "已成功生成索引文件: /home/u/noread/index.md"]
  /\ lookup "empty" (children (disk (main (P := Sample.host) Sample.wd)))
     = Some (Dir true true
               [("index.md",
                 File true ("# empty" ++ Py.LF ++ Py.LF ++ "## 目录" ++ Py.LF
                       ++ Py.LF ++ "* 暂无内容" ++ Py.LF))]).
Proof. repeat split. Qed.

(** [posixpath] on the paths of the sample. *)
Example scenario_paths :
  posixpath.relpath "/home/u" "/home/u/proj/src/deep" "/home/u/proj"
  = "src/deep"
  /\ posixpath.relpath "/home/u" "/home/u/proj" "/home/u/proj" = "."
  /\ posixpath.normpath "/home/u//x/../proj/./" = "/home/u/proj"
  /\ posixpath.basename "/home/u/proj" = "proj"
  /\ posixpath.join "/home/u" "proj" = "/home/u/proj"
  /\ Py.sorted ["b"; "a"; "c.md"; "B"] = ["B"; "a"; "b"; "c.md"]
  /\ Py.strip ("  * a" ++ Py.LF) = "* a".
Proof. repeat split. Qed.

(* ------------------------------------------------------------------ *)
(** * Beyond the claims: every line has its place in the tree *)

Section Places.

Context {P : OsPath}.

Lemma listed_dir_In (entries : list (string * node)) (d : string) :
  In d (directories_of entries) <-> listed_dir entries d = true.
Proof.
  unfold directories_of. rewrite filter_In, sorted_In. split; [tauto |].
  intros H. split; [now apply listed_dir_names | exact H].
Qed.

Lemma listed_file_In (entries : list (string * node)) (f : string) :
  In f (markdown_files_of entries) <-> listed_file entries f = true.
Proof.
  unfold markdown_files_of. rewrite filter_In, sorted_In. split; [tauto |].
  intros H. split; [| exact H].
  apply listed_file_lookup in H as (writable & content & Hl & _).
  apply lookup_In in Hl. now apply (in_map fst) in Hl.
Qed.

(** A line is in the listing of [n] exactly when it is one of the own
    lines of a directory the recursion reaches, at the depth and under the
    path of that directory. *)
Lemma listing_In_iff (root_path : string) (e : entry) :
  forall n current_path depth,
    In e (listing n root_path current_path depth)
    <-> exists ds m,
          visits n ds = true /\ subtree_at n ds = Some m
          /\ In e (own_lines m root_path (descend current_path ds)
                             (depth + List.length ds)).
Proof.
  intros n current_path depth. split.
  - revert current_path depth.
    induction n as [content| |r w entries IH] using node_rect_entries;
      intros current_path depth Hin; try (now destruct Hin).
    destruct r.
    + cbn [listing] in Hin. apply in_app_or in Hin as [Hin|Hin].
      * exists [], (Dir true w entries). cbn [visits isdir subtree_at descend
          fold_left List.length own_lines]. rewrite Nat.add_0_r.
        repeat split. apply in_or_app. now left.
      * apply in_flat_map in Hin as (d & Hd & [<-|Hin]).
        -- exists [], (Dir true w entries). cbn [visits isdir subtree_at
             descend fold_left List.length own_lines]. rewrite Nat.add_0_r.
           repeat split. apply in_or_app. right. now apply in_map.
        -- pose proof Hd as Hd'. apply listed_dir_In in Hd'.
           apply listed_dir_lookup in Hd' as (r' & w' & sub & Hl & Hi).
           rewrite with_child_lookup, Hl in Hin.
           rewrite Forall_forall in IH.
           apply (IH _ (lookup_In _ _ _ Hl)) in Hin
             as (ds & m & Hv & Hs & Hown).
           exists (d :: ds), m.
           cbn [visits subtree_at descend fold_left List.length].
           rewrite !with_child_lookup, Hl, Hi, Nat.add_succ_r.
           now repeat split.
    + exists [], (Dir false w entries). cbn [visits isdir subtree_at descend
        fold_left List.length own_lines]. rewrite Nat.add_0_r.
      now repeat split.
  - intros (ds & m & Hv & Hs & Hown). revert n current_path depth Hv Hs Hown.
    induction ds as [|d ds IH]; intros n current_path depth Hv Hs Hown.
    + cbn [subtree_at] in Hs. assert (m = n) by congruence. subst m.
      cbn [descend fold_left List.length] in Hown.
      rewrite Nat.add_0_r in Hown.
      destruct n as [| |[|] w entries]; try (now destruct Hown);
        [| exact Hown].
      cbn [own_lines listing] in *. apply in_app_or in Hown as [H|H];
        apply in_or_app; [now left | right].
      apply in_map_iff in H as (d & <- & Hd).
      apply in_flat_map. exists d. split; [exact Hd | now left].
    + destruct n as [| |[|] w entries]; try discriminate.
      cbn [visits subtree_at] in Hv, Hs.
      apply andb_true_iff in Hv as [Hi Hv]. apply negb_true_iff in Hi.
      rewrite with_child_lookup in Hv. rewrite with_child_lookup in Hs.
      destruct (lookup d entries) as [c|] eqn:Hl; [| discriminate].
      cbn [descend fold_left List.length] in Hown.
      rewrite Nat.add_succ_r in Hown.
      pose proof (IH c (os_path_join current_path d) (S depth) Hv Hs Hown)
        as Hin.
      cbn [listing]. apply in_or_app. right. apply in_flat_map.
      exists d. split.
      * apply listed_dir_In. unfold listed_dir, os_path_isdir.
        now rewrite with_child_lookup, Hl, (visits_isdir _ _ Hv), Hi.
      * right. now rewrite with_child_lookup, Hl.
Qed.

Lemma visits_snoc (d : string) (ds : list string) :
  forall n,
    visits n (ds ++ [d]) = true
    <-> visits n ds = true
        /\ exists w entries,
             subtree_at n ds = Some (Dir true w entries)
             /\ listed_dir entries d = true.
Proof.
  induction ds as [|d0 ds IH]; intros n.
  - destruct n as [| |[|] w entries]; cbn [app visits subtree_at isdir].
    + split; [discriminate | intros [H _]; discriminate].
    + split; [discriminate | intros [H _]; discriminate].
    + assert (Hnil : with_child d (fun c => visits c []) false entries
                     = with_child d isdir false entries).
      { rewrite !with_child_lookup.
        destruct (lookup d entries) as [c|]; [now destruct c | reflexivity]. }
      unfold listed_dir, os_path_isdir. rewrite andb_comm, Hnil. split.
      * intros H. split; [reflexivity |]. now exists w, entries.
      * now intros (_ & w' & entries' & [= <- <-] & H).
    + split; [discriminate |].
      intros (_ & w' & entries' & H & _). discriminate.
  - destruct n as [| |[|] w entries]; cbn [app visits subtree_at];
      try (split; [discriminate | intros [H _]; discriminate]).
    rewrite !with_child_lookup.
    destruct (lookup d0 entries) as [c|];
      [| rewrite andb_false_r; split; [discriminate
                                      | intros [H _]; discriminate]].
    rewrite !andb_true_iff, IH. tauto.
Qed.

(** X1. The file lines of the nested list of a directory are exactly the
    Markdown files (regular files that end in ".md" and are not called
    "index.md") of the directories the recursion reaches, each at the
    depth of its directory and with the path of its directory. *)
Theorem file_lines_exact (n : node) (root_path current_path : string)
    (base_indent : nat) :
  isdir n = true ->
  generate_nested_list n root_path current_path base_indent
  = Ok (render (listing n root_path current_path base_indent))
  /\ forall depth dir md_file display_name link,
       In (FileEntry depth dir md_file display_name link)
          (listing n root_path current_path base_indent)
       <-> exists ds w entries,
             visits n ds = true
             /\ subtree_at n ds = Some (Dir true w entries)
             /\ listed_file entries md_file = true
             /\ depth = base_indent + List.length ds
             /\ dir = descend current_path ds
             /\ display_name = Py.drop_last 3 md_file
             /\ link = file_link root_path dir md_file.
Proof.
  intros Hn. split; [now apply generate_nested_list_listing |].
  intros depth dir md_file display_name link.
  rewrite listing_In_iff. split.
  - intros (ds & m & Hv & Hs & Hown).
    destruct m as [| |[|] w entries]; try (now destruct Hown).
    cbn [own_lines] in Hown. apply in_app_or in Hown as [H|H].
    + apply in_map_iff in H as (f & [= <- <- <- <- <-] & Hf).
      exists ds, w, entries. apply listed_file_In in Hf. now repeat split.
    + apply in_map_iff in H as (d & H & _). discriminate.
  - intros (ds & w & entries & Hv & Hs & Hf & -> & -> & -> & ->).
    exists ds, (Dir true w entries). repeat split; try assumption.
    cbn [own_lines]. apply in_or_app. left.
    apply in_map_iff. exists md_file. split; [reflexivity |].
    now apply listed_file_In.
Qed.

(** X2. The directory lines of the nested list of a directory are
    exactly the directories the recursion reaches below it, each at the
    depth of the directory that holds it. *)
Theorem directory_lines_exact (n : node) (root_path current_path : string)
    (base_indent : nat) :
  isdir n = true ->
  generate_nested_list n root_path current_path base_indent
  = Ok (render (listing n root_path current_path base_indent))
  /\ forall depth d,
       In (DirEntry depth d)
          (listing n root_path current_path base_indent)
       <-> exists ds,
             visits n (ds ++ [d]) = true
             /\ depth = base_indent + List.length ds.
Proof.
  intros Hn. split; [now apply generate_nested_list_listing |].
  intros depth d. rewrite listing_In_iff. split.
  - intros (ds & m & Hv & Hs & Hown).
    destruct m as [| |[|] w entries]; try (now destruct Hown).
    cbn [own_lines] in Hown. apply in_app_or in Hown as [H|H].
    + apply in_map_iff in H as (f & H & _). discriminate.
    + apply in_map_iff in H as (d' & [= <- <-] & Hd).
      exists ds. split; [| reflexivity].
      apply visits_snoc. split; [exact Hv |].
      exists w, entries. split; [exact Hs | now apply listed_dir_In].
  - intros (ds & Hv & ->).
    apply visits_snoc in Hv as (Hv & w & entries & Hs & Hd).
    exists ds, (Dir true w entries). repeat split; try assumption.
    cbn [own_lines]. apply in_or_app. right.
    apply in_map. now apply listed_dir_In.
Qed.







End Places.

Lemma file_lines_exact_witness :
  In (FileEntry 2 "/home/u/proj/src/deep" "z.md" "z" "src/deep/z.md")
     (listing (P := Sample.host) (Dir true true Sample.proj)
              "/home/u/proj" "/home/u/proj" 0).
Proof.
  destruct (file_lines_exact (P := Sample.host) (Dir true true Sample.proj)
              "/home/u/proj" "/home/u/proj" 0 eq_refl) as [_ H].
  apply H. exists ["src"; "deep"], true, [("z.md", File true "")].
  repeat split.
Defined.

Lemma directory_lines_exact_witness :
  In (DirEntry 1 "deep")
     (listing (P := Sample.host) (Dir true true Sample.proj)
              "/home/u/proj" "/home/u/proj" 0).
Proof.
  destruct (directory_lines_exact (P := Sample.host)
              (Dir true true Sample.proj)
              "/home/u/proj" "/home/u/proj" 0 eq_refl) as [_ H].
  apply H. exists ["src"]. split; reflexivity.
Defined.


(* ------------------------------------------------------------------ *)
(** * Beyond the claims: what the nested list depends on *)

Lemma lookup_erase (d : string) (entries : list (string * node)) :
  lookup d (map (fun e => (fst e, erase (snd e))) entries)
  = option_map erase (lookup d entries).
Proof.
  unfold lookup.
  induction entries as [|[nm c] entries IH]; [reflexivity |].
  cbn. destruct (nm =? d); [reflexivity | exact IH].
Qed.

Section Erase.

Context {P : OsPath}.

Lemma listing_erase (n : node) :
  forall root_path current_path depth,
    listing (erase n) root_path current_path depth
    = listing n root_path current_path depth.
Proof.
  induction n as [content| |r w entries IH] using node_rect_entries;
    intros root_path current_path depth; try reflexivity.
  cbn [erase].
  assert (Hnames : map fst (map (fun e => (fst e, erase (snd e))) entries)
                   = map fst entries)
    by (rewrite map_map; now apply map_ext).
  apply listing_ext_fragments.
  - unfold markdown_files_of. rewrite Hnames. apply filter_ext. intros x.
    unfold listed_file, os_path_isfile.
    rewrite !with_child_lookup, lookup_erase.
    destruct (lookup x entries) as [[| |]|]; reflexivity.
  - unfold directories_of. rewrite Hnames. apply filter_ext. intros x.
    unfold listed_dir, os_path_isdir.
    rewrite !with_child_lookup, lookup_erase.
    destruct (lookup x entries) as [[| |]|]; reflexivity.
  - intros d _. rewrite !with_child_lookup, lookup_erase.
    destruct (lookup d entries) as [c|] eqn:Hl; [| reflexivity].
    cbn [option_map]. rewrite Forall_forall in IH.
    exact (IH _ (lookup_In _ _ _ Hl) _ _ _).
Qed.

Lemma generate_nested_list_erase (n : node)
    (root_path current_path : string) (depth : nat) :
  generate_nested_list (erase n) root_path current_path depth
  = generate_nested_list n root_path current_path depth.
Proof.
  destruct n as [| |r w entries]; try reflexivity.
  rewrite (generate_nested_list_listing (Dir r w entries)) by reflexivity.
  rewrite <- listing_erase.
  now apply generate_nested_list_listing.
Qed.

(** X4. Two trees that have the same names, kinds and read permissions
    everywhere have the same nested list: the recursion looks neither
    into a file nor at the write permission of a directory. *)
Theorem nested_list_ignores_contents (n1 n2 : node) :
  erase n1 = erase n2 ->
  forall root_path current_path base_indent,
    generate_nested_list n1 root_path current_path base_indent
    = generate_nested_list n2 root_path current_path base_indent.
Proof.
  intros H root_path current_path base_indent.
  rewrite <- (generate_nested_list_erase n1), H.
  apply generate_nested_list_erase.
Qed.

(** X7. Generating the index of a directory a second time, for the same
    output file, changes nothing and ends as the first time did, whatever
    the name of the output file. *)
Theorem index_twice (root_path output_file : string) (c : node) :
  generate_markdown_index root_path output_file
    (fst (generate_markdown_index root_path output_file c))
  = generate_markdown_index root_path output_file c
  /\ fst (generate_markdown_index root_path output_file
            (fst (generate_markdown_index root_path output_file c)))
     = fst (generate_markdown_index root_path output_file c).
Proof.
  pose proof (generate_markdown_index_again root_path output_file c) as H.
  split; [exact H | now rewrite H].
Qed.

(** X8. An output file whose name ends in ".md" and is not "index.md" is
    listed in the index written into it: the file exists, empty, when the
    root is listed, and only the name "index.md" is left out. *)
Theorem index_lists_itself (w : bool) (entries : list (string * node))
    (root_path output_file : string) :
  let name := os_path_basename output_file in
  let root := os_path_normpath root_path in
  Py.endswith name ".md" = true -> name <> "index.md" ->
  (exists old, lookup name entries = Some (File true old))
  \/ (lookup name entries = None /\ w = true) ->
  exists final pre post,
    generate_markdown_index root_path output_file (Dir true w entries)
    = (Dir true w final, Ok tt)
    /\ lookup name final
       = Some (File true (pre
                     ++ ("* [" ++ Py.drop_last 3 name ++ "]("
                         ++ file_link root root name ++ ")" ++ Py.LF)
                     ++ post)).
Proof.
  intros name root Hmd Hne Hopen.
  destruct (open_w_succeeds true w entries name Hopen) as [listed Ho].
  pose proof (generate_markdown_index_opened true w entries listed
                root_path output_file Ho) as Hgen.
  cbv zeta in Hgen. fold name root in Hgen.
  apply open_w_Ok in Ho
    as (r0 & w0 & e0 & e1 & [= <- <- <-] & [= <-] & H1 & _ & _).
  assert (Hin : In name (markdown_files_of listed)).
  { apply listed_file_In. apply listed_file_lookup. exists true, "".
    now repeat split. }
  destruct (in_split _ _ Hin) as (l1 & l2 & Hsplit).
  cbn [listing] in Hgen. rewrite Hsplit in Hgen.
  rewrite map_app in Hgen. cbn [map] in Hgen.
  rewrite <- app_assoc in Hgen. cbn [app] in Hgen.
  match type of Hgen with
  | context [(map ?F l1 ++ ?e :: ?rest)%list] =>
      set (before := map F l1) in *; set (after := rest) in *;
      set (line := e) in *
  end.
  assert (Hlines : match (before ++ line :: after)%list with
                   | [] => "* 暂无内容" ++ Py.LF
                   | _ => render (before ++ line :: after)%list
                   end
                   = render before ++ render_entry line ++ render after).
  { rewrite render_app, render_cons. now destruct before. }
  rewrite Hlines in Hgen.
  eexists. exists ("# " ++ os_path_basename root ++ Py.LF ++ Py.LF
                   ++ "## 目录" ++ Py.LF ++ Py.LF ++ render before),
    (render after).
  split; [exact Hgen |].
  rewrite lookup_set_child_same by congruence.
  do 2 f_equal. unfold line. cbn [render_entry Py.mul append].
  now rewrite !str_app_assoc.
Qed.

End Erase.

Lemma nested_list_ignores_contents_witness :
  generate_nested_list (P := Sample.host)
    (Dir true true [("a.md", File true "one"); ("d", Dir true true [])])
    "/home/u/proj" "/home/u/proj" 0
  = generate_nested_list (P := Sample.host)
      (Dir true false [("a.md", File true "two"); ("d", Dir true false [])])
      "/home/u/proj" "/home/u/proj" 0.
Proof.
  apply (nested_list_ignores_contents (P := Sample.host)). reflexivity.
Defined.

Lemma index_lists_itself_witness :
  exists final pre post,
    generate_markdown_index (P := Sample.host) "/home/u/proj"
      "/home/u/proj/toc.md" (Dir true true [("a.md", File true "")])
    = (Dir true true final, Ok tt)
    /\ lookup "toc.md" final
       = Some (File true (pre ++ ("* [toc](toc.md)" ++ Py.LF) ++ post)).
Proof.
  destruct (index_lists_itself (P := Sample.host) true
              [("a.md", File true "")] "/home/u/proj" "/home/u/proj/toc.md")
    as (final & pre & post & Hgen & Hl).
  - reflexivity.
  - discriminate.
  - right. split; reflexivity.
  - exists final, pre, post. split; [exact Hgen | exact Hl].
Defined.

(* ------------------------------------------------------------------ *)
(** * Beyond the claims: what a run writes *)

Section Writes.

Context {P : OsPath} {absolute : string -> Prop}.
Hypothesis laws : OsPathLaws P absolute.

(** The heading of the index of a directory of the working directory is
    the name of the directory. *)
Lemma root_name_directory (d : string) :
  valid_name d = true ->
  os_path_basename (os_path_normpath (os_path_join os_getcwd d)) = d.
Proof.
  intros Hd.
  pose proof (getcwd_absolute P absolute laws) as Hcwd.
  rewrite (normpath_absolute P absolute laws)
    by now apply (join_absolute P absolute laws).
  now apply (basename_join P absolute laws).
Qed.

(** One round of the loop of [main] leaves the directory as it was, or
    with a new "index.md" and nothing else changed. *)
Lemma index_of_only_index (d : string) (c : node) :
  valid_name d = true ->
  fst (index_of d c) = c
  \/ exists r w entries entries' body,
       c = Dir r w entries
       /\ index_of d c = (Dir r w entries', Ok tt)
       /\ lookup "index.md" entries'
          = Some (File true ("# " ++ d ++ Py.LF ++ Py.LF ++ "## 目录" ++ Py.LF
                        ++ Py.LF ++ body))
       /\ forall x, x <> "index.md" -> lookup x entries' = lookup x entries.
Proof.
  intros Hd. unfold index_of.
  destruct (open_w c "index.md") as [n1|e] eqn:Ho.
  - right. pose proof Ho as Ho'.
    apply open_w_Ok in Ho'
      as (r & w & es & es1 & -> & -> & H1 & Hother & _).
    pose proof (generate_markdown_index_opened r w es es1
                  (os_path_join os_getcwd d)
                  (os_path_join (os_path_join os_getcwd d) "index.md"))
      as Hgen.
    cbv zeta in Hgen.
    rewrite (index_name laws d Hd), (root_name_directory d Hd) in Hgen.
    exists r, w, es. eexists. eexists.
    split; [reflexivity |]. split; [exact (Hgen Ho) |].
    split; [apply lookup_set_child_same; congruence |].
    intros x Hx. now rewrite lookup_set_child_other, Hother.
  - left. unfold generate_markdown_index.
    now rewrite (index_name laws d Hd), Ho.
Qed.

(** X9. In a working directory whose entries have different, valid
    names, a run changes an entry only if it is a directory of a name
    that is not ignored, and then only its file "index.md", which begins
    with the heading made of the name of the directory: no other file or
    directory inside it is written, and the directories below it get no
    index of their own. *)
Theorem driver_writes_only_indexes (n : node) :
  NoDup (map fst (children n)) ->
  Forall (fun x => valid_name x = true) (map fst (children n)) ->
  forall d c c',
    lookup d (children n) = Some c ->
    lookup d (children (disk (main n))) = Some c' ->
    c' = c
    \/ exists r w entries entries' body,
         is_ignored_dir d = false
         /\ c = Dir r w entries /\ c' = Dir r w entries'
         /\ lookup "index.md" entries'
            = Some (File true ("# " ++ d ++ Py.LF ++ Py.LF ++ "## 目录" ++ Py.LF
                          ++ Py.LF ++ body))
         /\ forall x, x <> "index.md"
                      -> lookup x entries' = lookup x entries.
Proof.
  intros Hnd Hvalid d c c' Hc Hc'.
  assert (Hd : valid_name d = true).
  { rewrite Forall_forall in Hvalid. apply Hvalid.
    apply lookup_In in Hc. now apply (in_map fst) in Hc. }
  destruct n as [| |[|] w0 entries0]; cbn [children] in *;
    try discriminate;
    [| unfold main in Hc'; cbn [os_listdir disk children] in Hc';
       left; congruence].
  destruct (main_readable w0 entries0 Hnd) as (final & Hmain & _ & Hl).
  rewrite Hmain in Hc'. cbn [disk children] in Hc'.
  rewrite Hl, Hc in Hc'.
  destruct (listed_dir entries0 d) eqn:Hlisted; [| left; congruence].
  cbn [option_map] in Hc'. injection Hc' as <-.
  destruct (index_of_only_index d c Hd)
    as [H|(r & w & es & es' & body & -> & Hidx & Hfile & Hother)];
    [now left | right].
  exists r, w, es, es', body. rewrite Hidx. cbn [fst].
  unfold listed_dir in Hlisted. apply andb_true_iff in Hlisted as [_ Hi].
  apply negb_true_iff in Hi. now repeat split.
Qed.

End Writes.

Lemma driver_writes_only_indexes_witness :
  lookup "proj" (children (disk (main (P := Sample.host) Sample.wd)))
  = Some (Dir true true Sample.proj)
  \/ exists r w entries entries' body,
       is_ignored_dir "proj" = false
       /\ Dir true true Sample.proj = Dir r w entries
       /\ lookup "proj" (children (disk (main (P := Sample.host) Sample.wd)))
          = Some (Dir r w entries')
       /\ lookup "index.md" entries'
          = Some (File true ("# proj" ++ Py.LF ++ Py.LF ++ "## 目录" ++ Py.LF
                        ++ Py.LF ++ body))
       /\ forall x, x <> "index.md"
                    -> lookup x entries' = lookup x entries.
Proof.
  destruct (lookup "proj"
              (children (disk (main (P := Sample.host) Sample.wd))))
    as [c'|] eqn:Hc'; [| discriminate].
  destruct (driver_writes_only_indexes (P := Sample.host) sample_laws
              Sample.wd) with (d := "proj") (c := Dir true true Sample.proj)
                              (c' := c')
    as [->|(r & w & es & es' & body & Hi & Hc & -> & Hf & Ho)].
  - unfold Sample.wd. cbn [children map fst]. solve_NoDup.
  - unfold Sample.wd. cbn [children map fst]. repeat constructor.
  - reflexivity.
  - exact Hc'.
  - now left.
  - right. exists r, w, es, es', body. now repeat split.
Defined.

(* ------------------------------------------------------------------ *)
(** * Beyond the claims: on a POSIX host the links lead to the files *)

Section PosixLinks.

Import posixpath.

Local Abbreviation SEP := (String sep "").

Lemma py_join_app (l1 l2 : list string) :
  l1 <> [] -> l2 <> [] ->
  Py.join sep (l1 ++ l2)%list
  = Py.join sep l1 ++ SEP ++ Py.join sep l2.
Proof.
  intros H1 H2. induction l1 as [|x l1 IH]; [congruence |].
  destruct l1 as [|y l1].
  - destruct l2 as [|z l2]; [congruence | reflexivity].
  - change (Py.join sep ((x :: y :: l1) ++ l2)%list)
      with (x ++ SEP ++ Py.join sep ((y :: l1) ++ l2)%list).
    rewrite IH by discriminate.
    change (Py.join sep (x :: y :: l1))
      with (x ++ SEP ++ Py.join sep (y :: l1)).
    now rewrite !str_app_assoc.
Qed.

Lemma replace_absent (o n : ascii) (s : string) :
  Py.has o s = false -> Py.replace o n s = s.
Proof.
  induction s as [|c s IH]; [reflexivity |]. cbn.
  intros H. apply orb_false_iff in H as [Hc Hs].
  now rewrite Hc, (IH Hs).
Qed.

(** Joining the relative path of a directory to the root gives the
    directory back. *)
Lemma join_relative (comps l : list string) :
  Forall (fun c => name_ok c = true) comps ->
  Forall (fun c => name_ok c = true) l -> l <> [] ->
  join (posix_path comps) (Py.join sep l) = posix_path (comps ++ l)%list.
Proof.
  intros Hc Hl Hne.
  destruct l as [|x l]; [congruence |].
  inversion Hl as [|? ? Hx Hl']; subst.
  assert (Hfirst : Py.startswith (Py.join sep (x :: l)) SEP = false).
  { pose proof (name_ok_first x Hx) as Hf.
    pose proof Hx as Hx'. apply name_ok_parts in Hx' as (Hxne & _).
    destruct x as [|a x]; [congruence |].
    destruct l as [|y l]; [exact Hf |].
    change (Py.join sep (String a x :: y :: l))
      with (String a (x ++ SEP ++ Py.join sep (y :: l))).
    now rewrite (startswith_first a _ x). }
  unfold join. rewrite Hfirst.
  destruct comps as [|c comps]; [reflexivity |].
  assert (Hend : Py.endswith (posix_path (c :: comps)) SEP = false).
  { destruct (exists_last (l := c :: comps)) as (l' & y & Heq);
      [discriminate |].
    rewrite Heq in Hc |- *. apply Forall_app in Hc as [_ Hy].
    inversion Hy; subst.
    destruct (py_join_last l' y) as (a & Ha).
    unfold posix_path. rewrite Ha, <- str_app_assoc.
    now apply name_ok_last. }
  rewrite Hend. change (posix_path (c :: comps) =? "") with false.
  cbn [orb]. unfold posix_path.
  rewrite py_join_app by discriminate. now rewrite !str_app_assoc.
Qed.

(** X10. On a POSIX host, in the nested list of a root that is an
    absolute, normalised path, the link of a file, joined to the root, is
    the path of the file, provided no directory from the root down to
    the file has a backslash in its name. *)
Theorem posix_links_resolve (cwd : string) (n : node) (root_path : string) :
  posix_absolute cwd -> posix_absolute root_path ->
  valid_names (P := posix cwd) n ->
  forall depth dir md_file display_name link,
    In (FileEntry depth dir md_file display_name link)
       (listing (P := posix cwd) n root_path root_path 0) ->
    Py.has Py.backslash (relpath cwd dir root_path) = false ->
    join root_path link = join dir md_file.
Proof.
  intros Hcwd Hroot Hv depth dir md_file display_name link Hin Hbs.
  pose proof (posix_laws cwd Hcwd) as laws.
  pose proof (listing_link_spec (P := posix cwd) root_path n Hv [] 0
                (Forall_nil _)) as H.
  cbn [descend fold_left] in H. rewrite Forall_forall in H.
  destruct (H _ Hin) as (ds & Hds & Hmd & -> & -> & _ & _).
  rewrite (file_link_descend laws root_path md_file ds Hroot Hds).
  pose proof (relpath_descend (posix cwd) posix_absolute laws root_path ds
                Hroot Hds) as Hrel.
  cbn [os_path_relpath posix] in Hrel. rewrite Hrel in Hbs.
  destruct ds as [|d ds]; [reflexivity |].
  cbn [os_sep posix] in *.
  rewrite (replace_absent _ _ _ Hbs).
  destruct Hroot as (comps & Hcomps & ->).
  rewrite (descend_abs cwd comps (d :: ds) Hcomps Hds).
  assert (Hall : Forall (fun c => name_ok c = true)
                        ((d :: ds) ++ [md_file])%list)
    by (apply Forall_app; split; [assumption | now constructor]).
  change (Py.join sep (d :: ds) ++ "/" ++ md_file)
    with (Py.join sep (d :: ds) ++ SEP ++ md_file).
  rewrite <- (py_join_snoc (d :: ds) md_file) by discriminate.
  rewrite join_relative by (assumption || now destruct ds).
  rewrite join_abs;
    [now rewrite <- app_assoc | now apply Forall_app | exact Hmd].
Qed.

End PosixLinks.

Lemma posix_links_resolve_witness :
  posixpath.join "/home/u/proj" "src/deep/z.md"
  = posixpath.join "/home/u/proj/src/deep" "z.md".
Proof.
  apply (posix_links_resolve "/home/u" (Dir true true Sample.proj)
           "/home/u/proj") with (depth := 2) (display_name := "z").
  - now apply (sample_absolute ["home"; "u"]).
  - now apply (sample_absolute ["home"; "u"; "proj"]).
  - cbn. tauto.
  - vm_compute. tauto.
  - reflexivity.
Defined.

(* ------------------------------------------------------------------ *)
(** * Where the links lead *)

Lemma replace_same (c : ascii) (s : string) : Py.replace c c s = s.
Proof.
  induction s as [|x s IH]; [reflexivity |]. cbn. rewrite IH.
  now destruct (Ascii.eqb_spec x c) as [->|].
Qed.

Lemma has_join_parts (c s : ascii) (l : list string) :
  Py.has c (Py.join s l) = false ->
  Forall (fun x => Py.has c x = false) l.
Proof.
  unfold Py.join. induction l as [|x l IH]; intros H; [constructor |].
  destruct l as [|y l]; [now repeat constructor |].
  change (String.concat (String s "") (x :: y :: l))
    with (x ++ String s "" ++ String.concat (String s "") (y :: l)) in H.
  rewrite !has_app in H.
  apply orb_false_iff in H as [Hx H]. apply orb_false_iff in H as [_ H].
  constructor; [exact Hx | now apply IH].
Qed.

Section LinkPaths.

Context {P : OsPath} {absolute : string -> Prop}.
Hypothesis laws : OsPathLaws P absolute.
Hypothesis links : OsPathLinks P absolute.

(** The relative path of a directory of the tree, its separators made
    "/", has no backslash exactly when no name on the way has one. *)
Lemma relpath_plain (root_path : string) (ds : list string) :
  absolute root_path -> Forall (fun x => valid_name x = true) ds ->
  Py.has Py.backslash
    (Py.replace os_sep Py.slash
       (os_path_relpath (descend root_path ds) root_path)) = false
  <-> Forall (fun d => Py.has Py.backslash d = false) ds.
Proof.
  intros Hr Hds.
  rewrite (relpath_descend P absolute laws root_path ds Hr Hds).
  destruct ds as [|d ds].
  { split; intros _; [constructor |].
    now destruct (sep_cases P absolute laws) as [-> | ->]. }
  split.
  - destruct (sep_cases P absolute laws) as [Hs|Hs]; rewrite Hs.
    + rewrite replace_same. apply has_join_parts.
    + intros _. rewrite <- Hs. revert Hds. apply Forall_impl.
      apply (valid_name_sep P absolute laws).
  - intros Hbs. rewrite replace_join, Ascii.eqb_refl.
    apply has_join_false; [reflexivity |].
    apply Forall_forall. intros x Hx.
    apply in_map_iff in Hx as (y & <- & Hy).
    rewrite Forall_forall in Hds, Hbs.
    rewrite replace_absent;
      [now apply Hbs | now apply (valid_name_sep P absolute laws), Hds].
Qed.

(** C9, as the code has it. In the nested list of a root, take a file
    line whose directory has a relative path without a backslash once
    its separators are made "/": no directory from the root down to the
    file has a backslash in its own name. Its link is the names of those
    directories and the name of the file, joined by "/", which is the
    name of the file alone for a file of the root: its separators are
    forward slashes. The link is relative to the root: joined to the root
    and normalised it is the path of the file. And it has a backslash
    exactly when the name of the file has one. *)
Theorem link_backslash (n : node) (root_path : string) :
  absolute root_path -> valid_names n -> isdir n = true ->
  generate_nested_list n root_path root_path 0
  = Ok (render (listing n root_path root_path 0))
  /\ forall depth current_path md_file display_name link,
       In (FileEntry depth current_path md_file display_name link)
          (listing n root_path root_path 0) ->
       Py.has Py.backslash
         (Py.replace os_sep Py.slash
            (os_path_relpath current_path root_path)) = false ->
       exists ds,
         current_path = descend root_path ds
         /\ (ds = [] <-> current_path = root_path)
         /\ Forall (fun d => Py.has Py.backslash d = false) ds
         /\ link = Py.join Py.slash (ds ++ [md_file])
         /\ os_path_normpath (os_path_join root_path link)
            = os_path_join current_path md_file
         /\ Py.has Py.backslash link = Py.has Py.backslash md_file.
Proof.
  intros Hr Hv Hn. split; [now apply generate_nested_list_listing |].
  intros depth current_path md_file display_name link Hin Hplain.
  pose proof (listing_link_spec root_path n Hv [] 0 (Forall_nil _)) as H.
  cbn [descend fold_left] in H. rewrite Forall_forall in H.
  destruct (H _ Hin) as (ds & Hds & Hmd & -> & -> & _ & _).
  pose proof (proj1 (relpath_plain root_path ds Hr Hds) Hplain) as Hbs.
  assert (Hlink : file_link root_path (descend root_path ds) md_file
                  = Py.join Py.slash (ds ++ [md_file])).
  { rewrite (file_link_descend laws root_path md_file ds Hr Hds).
    destruct ds as [|d ds]; [reflexivity |].
    rewrite join_snoc by discriminate. rewrite replace_join.
    replace (map (Py.replace Py.backslash Py.slash) (d :: ds))
      with (d :: ds).
    - now destruct (sep_cases P absolute laws) as [-> | ->].
    - symmetry. rewrite <- (map_id (d :: ds)) at 2.
      apply map_ext_in. intros x Hx. apply replace_absent.
      rewrite Forall_forall in Hbs. now apply Hbs. }
  exists ds. split; [reflexivity |].
  split; [split; [now intros -> | now apply (descend_root laws)] |].
  split; [exact Hbs |].
  split; [exact Hlink |].
  split.
  - rewrite Hlink, (join_link P absolute links).
    + apply descend_snoc.
    + exact Hr.
    + apply Forall_app. split; [exact Hds | now constructor].
    + now destruct ds.
  - rewrite Hlink. destruct ds as [|d ds]; [reflexivity |].
    rewrite join_snoc by discriminate. rewrite !has_app.
    now rewrite has_join_false.
Qed.

End LinkPaths.

(** [posixpath] resolves a link as [OsPathLinks] says. *)
Lemma posix_links (cwd : string) : OsPathLinks (posix cwd) posix_absolute.
Proof.
  split. intros root names (comps & Hcomps & ->) Hnames Hne.
  cbn [os_path_normpath os_path_join posix].
  change Py.slash with posixpath.sep.
  rewrite join_relative by assumption.
  rewrite (descend_abs cwd comps names Hcomps Hnames).
  apply normpath_abs. now apply Forall_app.
Qed.

Lemma link_backslash_witness :
  (exists ds,
      In (FileEntry 2 "/home/u/proj/src/deep" "z.md" "z" "src/deep/z.md")
         (listing (P := Sample.host) (Dir true true Sample.proj)
                  "/home/u/proj" "/home/u/proj" 0)
      /\ "/home/u/proj/src/deep"
         = descend (P := Sample.host) "/home/u/proj" ds
      /\ "src/deep/z.md" = Py.join Py.slash (ds ++ ["z.md"])
      /\ posixpath.normpath (posixpath.join "/home/u/proj" "src/deep/z.md")
         = posixpath.join "/home/u/proj/src/deep" "z.md"
      /\ Py.has Py.backslash "src/deep/z.md" = false)
  /\ (In (FileEntry 1 "/home/u/proj/src" "a\b.md" "a\b" "src/a\b.md")
         (listing (P := Sample.host) (Dir true true Sample.proj)
                  "/home/u/proj" "/home/u/proj" 0)
      /\ posixpath.normpath (posixpath.join "/home/u/proj" "src/a\b.md")
         = posixpath.join "/home/u/proj/src" "a\b.md"
      /\ Py.has Py.backslash "src/a\b.md" = true).
Proof.
  destruct (link_backslash (P := Sample.host) sample_laws
              (posix_links "/home/u") (Dir true true Sample.proj)
              "/home/u/proj") as [_ H].
  - now apply (sample_absolute ["home"; "u"; "proj"]).
  - cbn. tauto.
  - reflexivity.
  - assert (Hz : In (FileEntry 2 "/home/u/proj/src/deep" "z.md" "z"
                               "src/deep/z.md")
                    (listing (P := Sample.host) (Dir true true Sample.proj)
                             "/home/u/proj" "/home/u/proj" 0))
      by (vm_compute; tauto).
    assert (Hb : In (FileEntry 1 "/home/u/proj/src" "a\b.md" "a\b"
                               "src/a\b.md")
                    (listing (P := Sample.host) (Dir true true Sample.proj)
                             "/home/u/proj" "/home/u/proj" 0))
      by (vm_compute; tauto).
    split.
    + destruct (H _ _ _ _ _ Hz eq_refl)
        as (ds & Hd & _ & _ & Hl & Hres & Hbs).
      exists ds. now repeat split.
    + destruct (H _ _ _ _ _ Hb eq_refl)
        as (ds & _ & _ & _ & _ & Hres & Hbs).
      now repeat split.
Defined.

(** On a POSIX host a file name may hold a backslash, and the link of such
    a file holds it too: a file "a\b.md" in the root is listed with the
    link "a\b.md". *)
Lemma link_backslash_counterexample :
  posixpath.name_ok "a\b.md" = true
  /\ generate_nested_list (P := Sample.host)
       (Dir true true [("a\b.md", File true "")])
       "/home/u/proj" "/home/u/proj" 0
     = Ok ("* [a\b](a\b.md)" ++ Py.LF)
  /\ In (FileEntry 0 "/home/u/proj" "a\b.md" "a\b" "a\b.md")
        (listing (P := Sample.host)
                 (Dir true true [("a\b.md", File true "")])
                 "/home/u/proj" "/home/u/proj" 0)
  /\ Py.has Py.backslash "a\b.md" = true.
Proof.
  split; [reflexivity |]. split; [reflexivity |].
  split; [now left | reflexivity].
Qed.

(** C2, where the code departs from it. On a POSIX host take the
    directory "a\b" of the root: its path relative to the root is
    "a\b", in which no character is a separator, so that with the
    separators normalised the link of its file "x.md" is "a\b/x.md".
    Line 58 replaces the backslash of the name as well: the link is
    "a/b/x.md", and joined to the root it is not the path of the file. *)
Theorem file_link_backslash_directory :
  let root := "/home/u/proj" in
  let tree :=
    Dir true true [("a\b", Dir true true [("x.md", File true "")])] in
  posixpath.name_ok "a\b" = true
  /\ os_path_join (OsPath := Sample.host) root "a\b" = "/home/u/proj/a\b"
  /\ os_path_relpath (OsPath := Sample.host) "/home/u/proj/a\b" root = "a\b"
  /\ Py.has (os_sep (OsPath := Sample.host)) "a\b" = false
  /\ generate_nested_list (P := Sample.host) tree root root 0
     = Ok ("* a\b" ++ Py.LF ++ "    * [x](a/b/x.md)" ++ Py.LF)
  /\ In (FileEntry 1 "/home/u/proj/a\b" "x.md" "x" "a/b/x.md")
        (listing (P := Sample.host) tree root root 0)
  /\ file_link (P := Sample.host) root "/home/u/proj/a\b" "x.md"
     <> "a\b" ++ "/" ++ "x.md"
  /\ os_path_normpath (OsPath := Sample.host)
       (os_path_join (OsPath := Sample.host) root "a/b/x.md")
     <> os_path_join (OsPath := Sample.host) "/home/u/proj/a\b" "x.md".
Proof.
  cbv zeta. repeat split; try reflexivity; try discriminate.
  vm_compute. tauto.
Qed.

(** X11. On a POSIX host, whatever the working directory of the process:
    for a root that is an absolute, normalised path and directories of
    valid names, the path built by joining the names to the root one
    after the other is again absolute and normalised, and its path
    relative to the root is "." for the root itself and otherwise the
    names joined by "/". *)
Theorem posix_relpath_of_joined (cwd root_path : string)
    (ds : list string) :
  posix_absolute root_path ->
  Forall (fun x => posixpath.name_ok x = true) ds ->
  let current_path := fold_left posixpath.join ds root_path in
  posix_absolute current_path
  /\ posixpath.normpath current_path = current_path
  /\ posixpath.relpath cwd current_path root_path
     = match ds with
       | [] => "."
       | _ => Py.join posixpath.sep ds
       end
  /\ (current_path = root_path <-> ds = []).
Proof.
  intros (comps & Hcomps & ->) Hds current_path.
  assert (Hcur : current_path = posix_path (comps ++ ds)%list)
    by apply (descend_abs cwd comps ds Hcomps Hds).
  assert (Hall : Forall (fun x => posixpath.name_ok x = true)
                        (comps ++ ds)%list)
    by (apply Forall_app; now split).
  rewrite Hcur.
  split; [now exists (comps ++ ds)%list |].
  split; [now apply normpath_abs |].
  split; [now apply relpath_abs |].
  split; [| intros ->; now rewrite app_nil_r].
  intros Heq. unfold posix_path in Heq.
  assert (Hsplit : filter Py.truthy
                     (Py.split posixpath.sep (posix_path (comps ++ ds)%list))
                   = filter Py.truthy
                       (Py.split posixpath.sep (posix_path comps)))
    by (unfold posix_path; now rewrite Heq).
  rewrite !split_abs in Hsplit by assumption.
  apply (f_equal (@List.length string)) in Hsplit.
  rewrite length_app in Hsplit.
  destruct ds; [reflexivity | cbn in Hsplit; lia].
Qed.

Lemma posix_relpath_of_joined_witness :
  posixpath.relpath "/tmp" "/home/u/proj/src/deep" "/home/u/proj"
  = "src/deep".
Proof.
  destruct (posix_relpath_of_joined "/tmp" "/home/u/proj" ["src"; "deep"])
    as (_ & _ & H & _).
  - now apply (sample_absolute ["home"; "u"; "proj"]).
  - repeat constructor.
  - exact H.
Defined.
